(** * sqlchain: the chain engine of a per-database SQL-chain

    A shallow embedding of [sqlchain/chain.go]: the storage keys, the block
    push path, the peer-block check, the acknowledgement path, the turn
    runner, the ingest step and the billing sweep, followed by the theorems
    that relate them to the written specification. *)

From Stdlib Require Import ZArith Lia List Bool.
From Stdlib Require Import Strings.Byte.
From stdpp Require Import base decidable countable numbers option list sorting strings gmap fin_maps.

Local Open Scope Z_scope.

(** ** Machine integers

    Go's fixed-width integers are carried as [Z] with the wrap-around of
    each conversion written out. *)

Module Int.

Definition int32_min : Z := - 2 ^ 31.
Definition int32_max : Z := 2 ^ 31 - 1.

Definition in_int32 (z : Z) : Prop := int32_min <= z <= int32_max.

(** [uint32(z)] *)
Definition to_uint32 (z : Z) : Z := z mod 2 ^ 32.

(** [int32(z)]: reinterpret the low 32 bits as two's complement. *)
Definition to_int32 (z : Z) : Z :=
  let u := z mod 2 ^ 32 in
  if u <? 2 ^ 31 then u else u - 2 ^ 32.

(** [uint64(z)] *)
Definition to_uint64 (z : Z) : Z := z mod 2 ^ 64.

(** [a + b], [a - b] on int32 operands. *)
Definition add32 (a b : Z) : Z := to_int32 (a + b).
Definition sub32 (a b : Z) : Z := to_int32 (a - b).

(** [a % b] on signed operands: the remainder takes the sign of [a]. *)
Definition rem32 (a b : Z) : Z := to_int32 (Z.rem a b).

(** [a += b] on uint64 operands. *)
Definition add64 (a b : Z) : Z := to_uint64 (a + b).

End Int.

(** ** Bytes and big-endian words *)

Module Bytes.

Definition byte_to_Z (b : byte) : Z := Z.of_N (Byte.to_N b).

(** [byte(z)]: keep the low eight bits. *)
Definition byte_of_Z (z : Z) : byte :=
  match Byte.of_N (Z.to_N (z mod 256)) with
  | Some b => b
  | None => x00
  end.

(** [binary.BigEndian.PutUint32(key, v)] on a fresh 4-byte slice. *)
Definition PutUint32 (v : Z) : list byte :=
  [ byte_of_Z (Z.shiftr v 24);
    byte_of_Z (Z.shiftr v 16);
    byte_of_Z (Z.shiftr v 8);
    byte_of_Z v ].

(** [binary.BigEndian.Uint32(b)]; [None] stands for the bounds-check panic
    on a slice shorter than four bytes. *)
Definition Uint32 (b : list byte) : option Z :=
  match b with
  | b0 :: b1 :: b2 :: b3 :: _ =>
      Some (Z.lor (Z.lor (Z.lor (byte_to_Z b3)
                                (Z.shiftl (byte_to_Z b2) 8))
                         (Z.shiftl (byte_to_Z b1) 16))
                  (Z.shiftl (byte_to_Z b0) 24))
  | _ => None
  end.

(** [utils.ConcatAll] *)
Definition ConcatAll (parts : list (list byte)) : list byte := concat parts.

End Bytes.

(** ** Storage keys *)

Definition metaBlockIndex : list byte := [x42; x4c; x43; x4b].
Definition metaResponseIndex : list byte := [x52; x45; x53; x50].
Definition metaAckIndex : list byte := [x51; x41; x43; x4b].

Definition minBlockCacheTTL : Z := 30.

(** [heightToKey] converts a height in int32 to a key in bytes. *)
Definition heightToKey (h : Z) : list byte :=
  Bytes.PutUint32 (Int.to_uint32 h).

(** [keyWithSymbolToHeight] converts a height back from a tagged key. *)
Definition keyWithSymbolToHeight (k : list byte) : Z :=
  if (Z.of_nat (length k) <? 8) then -1
  else match Bytes.Uint32 (drop 4 k) with
       | Some u => Int.to_int32 u
       | None => -1
       end.


(** ** Errors

    Go [error] values. The sentinels are those of the package; [ErrNew]
    stands for an error made by a collaborator (the key/value store, the
    codec, the signature primitives, the transport, the context);
    [ErrWrap] is [errors.Wrap]/[errors.Wrapf], the message kept as its
    format string. *)

Inductive error : Type :=
| ErrParentNotFound
| ErrInvalidBlock
| ErrUnknownProducer
| ErrInvalidProducer
| ErrQueryExpired
| ErrNew (msg : string)
| ErrWrap (cause : error) (msg : string).


(** ** Messages (package [types])

    The message types are declared outside [chain.go]; they are modelled
    from section 3 of the specification and from the fields and getters
    that [chain.go] uses. Pointers to message parts are carried as
    values. *)

#[global] Instance byte_eqdec : EqDecision byte := Byte.byte_eq_dec.
#[global] Instance byte_countable : Countable byte :=
  inj_countable Byte.to_N Byte.of_N Byte.of_to_N.

Abbreviation Hash := (list byte).
Abbreviation AccountAddress := (list byte).
Abbreviation PublicKey := (list byte).
Abbreviation PrivateKey := (list byte).
Abbreviation NodeID := (string).
Abbreviation DatabaseID := (string).
(** [time.Time], in nanoseconds. *)
Abbreviation Time := (Z).

Inductive QueryType : Type := ReadQuery | WriteQuery.

#[global] Instance QueryType_eqdec : EqDecision QueryType.
Proof. solve_decision. Defined.

(** Modelled from the spec: the request header, missing from the sources:
    query type, signer public key, timestamp. *)
Record RequestHeader : Type := {
  QueryType_ : QueryType;
  ReqSignee : PublicKey;
  ReqTimestamp : Time;
}.

(** Modelled from the spec: the request payload, missing from the
    sources: the list of queries. *)
Record RequestPayload : Type := {
  Queries : list string;
}.

(** Modelled from the spec: the request, missing from the sources. *)
Record Request : Type := {
  ReqHeader : RequestHeader;
  Payload : RequestPayload;
}.

(** Modelled from the spec: the response header, missing from the
    sources: request timestamp, response timestamp, miner identity, row
    count, affected rows, hash and signature. *)
Record SignedResponseHeader : Type := {
  RespRequestTimestamp : Time;
  RespTimestamp : Time;
  ResponseAccount : AccountAddress;
  RowCount : Z;          (* uint64 *)
  AffectedRows : Z;      (* int64 *)
  RespHash : Hash;
  RespSignature : list byte;
}.

(** Modelled from the spec: the acknowledgement, missing from the
    sources: a signed record confirming receipt of a response; it carries
    the response (hence the request and response timestamps), its own
    timestamp and a content hash. *)
Record SignedAckHeader : Type := {
  AckResponse : SignedResponseHeader;
  AckTimestamp : Time;
  AckHash : Hash;
}.

(** Modelled from the spec: the getters of the ack, missing from the
    sources: the request and the response timestamp it carries. *)
Definition GetRequestTimestamp (ack : SignedAckHeader) : Time :=
  RespRequestTimestamp (AckResponse ack).
Definition GetResponseTimestamp (ack : SignedAckHeader) : Time :=
  RespTimestamp (AckResponse ack).

(** Modelled from the spec: a query transaction, missing from the
    sources: a request and response header pair. *)
Record QueryAsTx : Type := {
  TxRequest : Request;
  TxResponse : SignedResponseHeader;
}.

(** Modelled from the spec: the block, missing from the sources: version,
    producer, genesis hash, parent hash, merkle root, timestamp, block
    hash, signer and signature, failed requests, query transactions,
    acknowledgements. *)
Record Block : Type := {
  Version : Z;
  Producer : NodeID;
  GenesisHash : Hash;
  ParentHash : Hash;
  MerkleRoot : Hash;
  Timestamp : Time;
  BlockHash : Hash;
  Signee : PublicKey;
  Signature : list byte;
  FailedReqs : list Request;
  QueryTxs : list QueryAsTx;
  Acks : list SignedAckHeader;
}.

(** Modelled from the spec: the billing update, missing from the sources:
    a receiver and per-user costs, each with per-miner incomes. *)
Record MinerIncome : Type := {
  Miner : AccountAddress;
  Income : Z;
}.

Record UserCost : Type := {
  User : AccountAddress;
  Cost : Z;
  Miners : list MinerIncome;
}.

Record UpdateBilling : Type := {
  Receiver : AccountAddress;
  Users : list UserCost;
  Nonce : Z;
  UBSignature : list byte;
}.

(** Modelled from the spec: the query tracker, missing from the sources:
    it exposes readiness and the request/response pair. [qtPolls] is the
    number of polls of [Ready()] that answer false before the tracker
    reports ready. *)
Record QueryTracker : Type := {
  qtReq : Request;
  qtResp : SignedResponseHeader;
  qtPolls : nat;
}.

(** ** Collaborators

    The contracts the chain engine consumes: SQL state, codec, signature
    primitives and the transport. Every result below holds for any
    implementation of them. *)

Class Collaborators : Type := {
  SQLState : Type;
  (** [st.CommitEx()] *)
  CommitEx : SQLState -> list Request * list QueryTracker * option error * SQLState;
  (** [st.ReplayBlockWithContext(ctx, block)] *)
  ReplayBlockWithContext : SQLState -> Block -> option error * SQLState;
  (** [utils.EncodeMsgPack] / [utils.DecodeMsgPack] *)
  EncodeBlock : Block -> error + list byte;
  DecodeBlock : list byte -> error + Block;
  EncodeAck : SignedAckHeader -> error + list byte;
  (** [block.Verify()], [ack.Verify()] *)
  VerifyBlock : Block -> option error;
  VerifyAck : SignedAckHeader -> option error;
  (** [block.PackAndSignBlock(pk)] *)
  PackAndSignBlock : PrivateKey -> Block -> error + Block;
  (** [crypto.PubKeyHash] *)
  PubKeyHash : PublicKey -> error + AccountAddress;
  (** [databaseID.AccountAddress()] *)
  DatabaseAccountAddress : DatabaseID -> error + AccountAddress;
  (** [ub.Sign(pk)] *)
  SignUpdateBilling : PrivateKey -> UpdateBilling -> option error * UpdateBilling;
  (** [rpc.RequestBP(MCCNextAccountNonce, ...)]: the error and the nonce
      left in the response. *)
  NextAccountNonce : AccountAddress -> option error * Z;
  (** [rpc.RequestBP(MCCAddTx, ...)] *)
  AddTx : UpdateBilling -> option error;
  (** [cl.CallNodeWithContext(ctx, id, SQLCAdviseNewBlock, ...)] *)
  AdviseNewBlock : NodeID -> Block -> Z -> option error;
}.

(** ** The key/value store (leveldb)

    The store keeps its entries in key order (bytewise), which is the
    order its iterators walk them in; a put replaces the value of a key
    that is there. [kv_fault] is the store's failure condition: while it
    is set every write fails with it. *)

(** Bytewise (lexicographic) order on keys and hashes. *)
Fixpoint bytes_leb (a b : list byte) : bool :=
  match a, b with
  | [], _ => true
  | _ :: _, [] => false
  | x :: a', y :: b' =>
      if (Byte.to_N x <? Byte.to_N y)%N then true
      else if (Byte.to_N x =? Byte.to_N y)%N then bytes_leb a' b'
      else false
  end.

Fixpoint kv_insert (k v : list byte) (l : list (list byte * list byte))
    : list (list byte * list byte) :=
  match l with
  | [] => [(k, v)]
  | (k', v') :: rest =>
      if bool_decide (k = k') then (k, v) :: rest
      else if bytes_leb k k' then (k, v) :: (k', v') :: rest
      else (k', v') :: kv_insert k v rest
  end.

Fixpoint kv_lookup (k : list byte) (l : list (list byte * list byte))
    : option (list byte) :=
  match l with
  | [] => None
  | (k', v') :: rest => if bool_decide (k = k') then Some v' else kv_lookup k rest
  end.

Record Store : Type := {
  kv_data : list (list byte * list byte);
  kv_fault : option error;
}.

Definition Store_Put (k v : list byte) (s : Store) : option error * Store :=
  match kv_fault s with
  | Some e => (Some e, s)
  | None => (None, {| kv_data := kv_insert k v (kv_data s); kv_fault := None |})
  end.

Definition Store_Get (k : list byte) (s : Store) : error + list byte :=
  match kv_lookup k (kv_data s) with
  | Some v => inr v
  | None => inl (ErrNew "leveldb: not found")
  end.

(** ** Block nodes and the block index

    Nodes live in a heap ([list blockNode]); a pointer is an index into
    it, so that the head state and the block index share the node they
    both point to. *)

Abbreviation ptr := (nat).

Record blockNode : Type := {
  bn_parent : option ptr;
  bn_hash : Hash;
  bn_height : Z;         (* int32 *)
  bn_count : Z;          (* int32 *)
  bn_block : option Block;
}.

(** Modelled from the spec: [node.indexKey()], missing from the sources;
    the key layout of section 4.1 is big-endian height, then block hash. *)
Definition indexKey (n : blockNode) : list byte :=
  Bytes.ConcatAll [heightToKey (bn_height n); bn_hash n].

(** Modelled from the spec: [node.ancestor(height)], missing from the
    sources: walk parent pointers until node.height <= height, absent when
    the walk climbs past genesis. Parent links point to older nodes, so a
    walk takes at most as many steps as the heap has nodes. *)
Fixpoint ancestor_from (fuel : nat) (heap : list blockNode) (p : option ptr)
    (height : Z) : option blockNode :=
  match fuel with
  | O => None
  | S fuel' =>
      match p with
      | None => None
      | Some i =>
          match heap !! i with
          | None => None
          | Some n =>
              if bn_height n <=? height then Some n
              else ancestor_from fuel' heap (bn_parent n) height
          end
      end
  end.

Definition ancestor (heap : list blockNode) (p : option ptr) (height : Z)
    : option blockNode :=
  ancestor_from (length heap) heap p height.

(** Modelled from the spec: the block index, missing from the sources: a
    mapping from block hash to block node. *)
Abbreviation blockIndex := (gmap Hash ptr).

Definition newBlockIndex : blockIndex := ∅.
Definition addBlock (hash : Hash) (p : ptr) (bi : blockIndex) : blockIndex :=
  <[hash := p]> bi.
Definition lookupNode (hash : Hash) (bi : blockIndex) : option ptr := bi !! hash.

(** ** The acknowledgement index *)

(** Modelled from the spec: the ack index, missing from the sources
    (section 4.3): buckets keyed by height; a bucket maps the hash of a
    response to the response and, once registered, its ack. *)
Record ackTracker : Type := {
  at_resp : SignedResponseHeader;
  at_ack : option SignedAckHeader;
}.

Abbreviation ackIndex := (gmap Z (gmap Hash ackTracker)).

Definition newAckIndex : ackIndex := ∅.

Definition ai_bucket (h : Z) (ai : ackIndex) : gmap Hash ackTracker :=
  default ∅ (ai !! h).

(** Modelled from the spec: [ackIndex.addResponse], missing from the
    sources: record the response in bucket h. *)
Definition ai_addResponse (h : Z) (resp : SignedResponseHeader) (ai : ackIndex)
    : option error * ackIndex :=
  (None,
   <[h := <[RespHash resp := {| at_resp := resp; at_ack := None |}]> (ai_bucket h ai)]> ai).

(** Modelled from the spec: [ackIndex.register], missing from the
    sources: associate the ack with the previously seen response in
    bucket h; fails if the response is absent or its signature differs
    from the one the ack carries. *)
Definition ai_register (h : Z) (ack : SignedAckHeader) (ai : ackIndex)
    : option error * ackIndex :=
  match ai_bucket h ai !! RespHash (AckResponse ack) with
  | None => (Some (ErrNew "response not found"), ai)
  | Some t =>
      if bool_decide (RespSignature (at_resp t) = RespSignature (AckResponse ack))
      then (None,
            <[h := <[RespHash (AckResponse ack) :=
                       {| at_resp := at_resp t; at_ack := Some ack |}]>
                     (ai_bucket h ai)]> ai)
      else (Some (ErrNew "response signature mismatched"), ai)
  end.

(** Modelled from the spec: [ackIndex.remove], missing from the sources:
    delete the ack from bucket h. *)
Definition ai_remove (h : Z) (ack : SignedAckHeader) (ai : ackIndex)
    : option error * ackIndex :=
  match ai_bucket h ai !! RespHash (AckResponse ack) with
  | None => (Some (ErrNew "ack not found"), ai)
  | Some _ =>
      (None, <[h := delete (RespHash (AckResponse ack)) (ai_bucket h ai)]> ai)
  end.

(** The ack registered for the response of [ack] in bucket [h], if any. *)
Definition ai_registered (h : Z) (ack : SignedAckHeader) (ai : ackIndex)
    : option SignedAckHeader :=
  t ← ai_bucket h ai !! RespHash (AckResponse ack); at_ack t.

Definition ack_leb (a b : Z * SignedAckHeader) : bool :=
  if a.1 <? b.1 then true
  else if a.1 =? b.1 then bytes_leb (AckHash a.2) (AckHash b.2)
  else false.

Definition ack_le (a b : Z * SignedAckHeader) : Prop := ack_leb a b = true.

#[global] Instance ack_le_dec : RelDecision ack_le.
Proof. intros a b. unfold ack_le. apply _. Defined.

(** Modelled from the spec: [ackIndex.acks], missing from the sources:
    the registered acks of the buckets below h, height ascending, then ack
    hash ascending. *)
Definition ai_acks (h : Z) (ai : ackIndex) : list SignedAckHeader :=
  let registered :=
    mbind (fun hb : Z * gmap Hash ackTracker =>
             if hb.1 <? h
             then omap (fun kt : Hash * ackTracker =>
                          option_map (pair hb.1) (at_ack kt.2))
                       (map_to_list hb.2)
             else [])
          (map_to_list ai) in
  snd <$> merge_sort ack_le registered.

(** Modelled from the spec: [ackIndex.advance], missing from the sources:
    drop all buckets with height < minValid. *)
Definition ai_advance (minValid : Z) (ai : ackIndex) : ackIndex :=
  filter (fun hb : Z * gmap Hash ackTracker => minValid <= hb.1) ai.

(** ** The runtime clock *)

(** Modelled from the spec: the head state, missing from the sources: the
    triple {node, hash, height}. *)
Record state : Type := {
  node : option ptr;
  Head : Hash;
  Height : Z;            (* int32 *)
}.

(** Modelled from the spec: the peer list, missing from the sources. *)
Record Peers : Type := {
  Servers : list NodeID;
}.

(** Modelled from the spec: the runtime, missing from the sources
    (section 4.4): genesis time, turn period, server identity, peer list,
    head state, next-turn counter, query TTL, block-cache TTL and the
    cancellation signal. *)
Record runtime : Type := {
  chainInitTime : Time;
  genesisHash : Hash;
  period : Z;
  server : NodeID;
  peers : Peers;
  rt_head : state;
  nextTurn : Z;          (* int32 *)
  queryTTL : Z;          (* int32 *)
  blockCacheTTL : Z;     (* int32 *)
  (** [ctx.Err()]: set once the context is cancelled. *)
  ctxErr : option error;
}.

(** Modelled from the spec: [rt.getHeightFromTime], missing from the
    sources: height-of(t) = floor((t - genesis) / period). *)
Definition getHeightFromTime (r : runtime) (t : Time) : Z :=
  (t - chainInitTime r) / period r.

Definition getHead (r : runtime) : state := rt_head r.
Definition getPeers (r : runtime) : Peers := peers r.
Definition getServer (r : runtime) : NodeID := server r.
Definition getNextTurn (r : runtime) : Z := nextTurn r.

(** Modelled from the spec: [rt.getMinValidHeight], missing from the
    sources: min-valid-height = head.height - Q, Q the query TTL in
    turns. *)
Definition getMinValidHeight (r : runtime) : Z :=
  Height (getHead r) - queryTTL r.

(** Modelled from the spec: [rt.queryTimeIsExpired], missing from the
    sources: a timestamp whose height is below min-valid-height is
    expired. *)
Definition queryTimeIsExpired (r : runtime) (t : Time) : bool :=
  getHeightFromTime r t <? getMinValidHeight r.

(** Modelled from the spec: [peers.Find], missing from the sources: the
    index of a node in the peer list, absent when it is not a peer. *)
Fixpoint Find_from (i : Z) (servers : list NodeID) (key : NodeID) : option Z :=
  match servers with
  | [] => None
  | s :: rest =>
      if bool_decide (key = s) then Some (Int.to_int32 i)
      else Find_from (i + 1) rest key
  end.

Definition Find (p : Peers) (key : NodeID) : option Z :=
  Find_from 0 (Servers p) key.

(** Modelled from the spec: [rt.isMyTurn], missing from the sources:
    is-my-turn() = (next-turn - 1) mod |peers| == index-of(server). *)
Definition isMyTurn (r : runtime) : bool :=
  match Find (peers r) (server r) with
  | Some i => (nextTurn r - 1) mod Z.of_nat (length (Servers (peers r))) =? i
  | None => false
  end.

Definition rt_setHead (s : state) (r : runtime) : runtime :=
  {| chainInitTime := chainInitTime r; genesisHash := genesisHash r;
     period := period r; server := server r; peers := peers r;
     rt_head := s; nextTurn := nextTurn r; queryTTL := queryTTL r;
     blockCacheTTL := blockCacheTTL r; ctxErr := ctxErr r |}.

(** Modelled from the spec: [rt.setNextTurn], missing from the sources:
    advance the next-turn counter by one. *)
Definition rt_setNextTurn (r : runtime) : runtime :=
  {| chainInitTime := chainInitTime r; genesisHash := genesisHash r;
     period := period r; server := server r; peers := peers r;
     rt_head := rt_head r; nextTurn := Int.add32 (nextTurn r) 1;
     queryTTL := queryTTL r; blockCacheTTL := blockCacheTTL r;
     ctxErr := ctxErr r |}.

(** ** Observable calls

    The calls a run makes to its collaborators and to the operations the
    specification orders, in the order they happen. *)

Inductive LogLevel : Type := LError | LWarning | LInfo.

Inductive Event : Type :=
| EvLog (level : LogLevel) (msg : string)
| EvStat
| EvPruneBlockCache
| EvSetNextTurn
| EvAckAdvance (minValid : Z)
| EvSendHeight (h : Z)
| EvSendBlock (b : Block)
| EvCommitEx
| EvReplayBlock (b : Block)
| EvAdviseNewBlock (peer : NodeID) (b : Block) (count : Z)
| EvNextAccountNonce (addr : AccountAddress)
| EvSignUpdateBilling (ub : UpdateBilling)
| EvAddTx (ub : UpdateBilling).

(** A call either returns or panics. *)
Inductive result (A : Type) : Type :=
| Ret (a : A)
| Panic (msg : string).
Arguments Ret {A} a.
Arguments Panic {A} msg.

Section Engine.

Context {X : Collaborators}.

(** ** The chain *)

Record Chain : Type := {
  bdb : Store;
  tdb : Store;
  bi : blockIndex;
  ai : ackIndex;
  st : SQLState;
  rt : runtime;
  (** the heap of block nodes *)
  nodes : list blockNode;
  (** the pending-block and height-advance channels, oldest first *)
  blocks : list Block;
  heights : list Z;
  databaseID : DatabaseID;
  tokenType : Z;
  gasPrice : Z;            (* uint64 *)
  updatePeriod : Z;        (* uint64 *)
  pk : PrivateKey;
  addr : AccountAddress;
}.

Definition set_bdb (v : Store) (c : Chain) : Chain :=
  {| bdb := v; tdb := tdb c; bi := bi c; ai := ai c; st := st c; rt := rt c;
     nodes := nodes c; blocks := blocks c; heights := heights c;
     databaseID := databaseID c; tokenType := tokenType c;
     gasPrice := gasPrice c; updatePeriod := updatePeriod c; pk := pk c;
     addr := addr c |}.
Definition set_tdb (v : Store) (c : Chain) : Chain :=
  {| bdb := bdb c; tdb := v; bi := bi c; ai := ai c; st := st c; rt := rt c;
     nodes := nodes c; blocks := blocks c; heights := heights c;
     databaseID := databaseID c; tokenType := tokenType c;
     gasPrice := gasPrice c; updatePeriod := updatePeriod c; pk := pk c;
     addr := addr c |}.
Definition set_bi (v : blockIndex) (c : Chain) : Chain :=
  {| bdb := bdb c; tdb := tdb c; bi := v; ai := ai c; st := st c; rt := rt c;
     nodes := nodes c; blocks := blocks c; heights := heights c;
     databaseID := databaseID c; tokenType := tokenType c;
     gasPrice := gasPrice c; updatePeriod := updatePeriod c; pk := pk c;
     addr := addr c |}.
Definition set_ai (v : ackIndex) (c : Chain) : Chain :=
  {| bdb := bdb c; tdb := tdb c; bi := bi c; ai := v; st := st c; rt := rt c;
     nodes := nodes c; blocks := blocks c; heights := heights c;
     databaseID := databaseID c; tokenType := tokenType c;
     gasPrice := gasPrice c; updatePeriod := updatePeriod c; pk := pk c;
     addr := addr c |}.
Definition set_st (v : SQLState) (c : Chain) : Chain :=
  {| bdb := bdb c; tdb := tdb c; bi := bi c; ai := ai c; st := v; rt := rt c;
     nodes := nodes c; blocks := blocks c; heights := heights c;
     databaseID := databaseID c; tokenType := tokenType c;
     gasPrice := gasPrice c; updatePeriod := updatePeriod c; pk := pk c;
     addr := addr c |}.
Definition set_rt (v : runtime) (c : Chain) : Chain :=
  {| bdb := bdb c; tdb := tdb c; bi := bi c; ai := ai c; st := st c; rt := v;
     nodes := nodes c; blocks := blocks c; heights := heights c;
     databaseID := databaseID c; tokenType := tokenType c;
     gasPrice := gasPrice c; updatePeriod := updatePeriod c; pk := pk c;
     addr := addr c |}.
Definition set_nodes (v : list blockNode) (c : Chain) : Chain :=
  {| bdb := bdb c; tdb := tdb c; bi := bi c; ai := ai c; st := st c; rt := rt c;
     nodes := v; blocks := blocks c; heights := heights c;
     databaseID := databaseID c; tokenType := tokenType c;
     gasPrice := gasPrice c; updatePeriod := updatePeriod c; pk := pk c;
     addr := addr c |}.
Definition set_blocks (v : list Block) (c : Chain) : Chain :=
  {| bdb := bdb c; tdb := tdb c; bi := bi c; ai := ai c; st := st c; rt := rt c;
     nodes := nodes c; blocks := v; heights := heights c;
     databaseID := databaseID c; tokenType := tokenType c;
     gasPrice := gasPrice c; updatePeriod := updatePeriod c; pk := pk c;
     addr := addr c |}.
Definition set_heights (v : list Z) (c : Chain) : Chain :=
  {| bdb := bdb c; tdb := tdb c; bi := bi c; ai := ai c; st := st c; rt := rt c;
     nodes := nodes c; blocks := blocks c; heights := v;
     databaseID := databaseID c; tokenType := tokenType c;
     gasPrice := gasPrice c; updatePeriod := updatePeriod c; pk := pk c;
     addr := addr c |}.

(** ** Methods run in a state monad over the chain, with the list of
    observable calls made and an outcome that is a value or a panic. Go
    errors are ordinary values ([option error]). *)

Definition M (A : Type) : Type := Chain -> result A * Chain * list Event.

Definition ret {A : Type} (a : A) : M A := fun c => (Ret a, c, []).

Definition bind {A B : Type} (m : M A) (k : A -> M B) : M B := fun c =>
  match m c with
  | (Ret a, c1, t1) =>
      match k a c1 with
      | (r, c2, t2) => (r, c2, t1 ++ t2)
      end
  | (Panic msg, c1, t1) => (Panic msg, c1, t1)
  end.

Definition get : M Chain := fun c => (Ret c, c, []).
Definition modify (f : Chain -> Chain) : M unit := fun c => (Ret tt, f c, []).
Definition emit (e : Event) : M unit := fun c => (Ret tt, c, [e]).
Definition panic {A : Type} (msg : string) : M A := fun c => (Panic msg, c, []).

(** [defer]: the deferred call runs when the body returns and when it
    panics; a panic of the body goes on after it. *)
Definition defer {A : Type} (body : M A) (deferred : M unit) : M A := fun c =>
  match body c with
  | (r, c1, t1) =>
      match deferred c1 with
      | (Ret _, c2, t2) => (r, c2, t1 ++ t2)
      | (Panic msg, c2, t2) => (Panic msg, c2, t1 ++ t2)
      end
  end.

End Engine.

Notation "x <- m ;; k" := (bind m (fun x => k))
  (at level 100, m at next level, right associativity).
Notation "m ;;; k" := (bind m (fun _ => k))
  (at level 100, right associativity).

Section Methods.

Context {X : Collaborators}.

Definition logAt (level : LogLevel) (msg : string) : M unit := emit (EvLog level msg).

(** Log [msg] at [level] when [err] is set. *)
Definition logIfErr (level : LogLevel) (msg : string) (err : option error) : M unit :=
  match err with
  | Some _ => logAt level msg
  | None => ret tt
  end.

(** Modelled from the spec: [newBlockNode], missing from the sources: the
    node mirrors the block, with count = parent count + 1 and 0 for
    genesis, and keeps the block body cached. *)
Definition newBlockNode (height : Z) (block : Block) (parent : option ptr)
    : M (ptr * blockNode) :=
  c <- get ;;
  let count :=
    match parent with
    | Some p =>
        match nodes c !! p with
        | Some pn => Int.add32 (bn_count pn) 1
        | None => 0
        end
    | None => 0
    end in
  let n := {| bn_parent := parent; bn_hash := BlockHash block;
              bn_height := height; bn_count := count;
              bn_block := Some block |} in
  modify (set_nodes (nodes c ++ [n])) ;;;
  ret (length (nodes c), n).

(** [AddResponse] adds a response to the ack index, awaiting for
    acknowledgement. *)
Definition AddResponse (resp : SignedResponseHeader) : M (option error) :=
  c <- get ;;
  match ai_addResponse (getHeightFromTime (rt c) (RespRequestTimestamp resp)) resp (ai c) with
  | (err, ai') => modify (set_ai ai') ;;; ret err
  end.

Definition register (ack : SignedAckHeader) : M (option error) :=
  c <- get ;;
  match ai_register (getHeightFromTime (rt c) (GetRequestTimestamp ack)) ack (ai c) with
  | (err, ai') => modify (set_ai ai') ;;; ret err
  end.

Definition remove (ack : SignedAckHeader) : M (option error) :=
  c <- get ;;
  match ai_remove (getHeightFromTime (rt c) (GetRequestTimestamp ack)) ack (ai c) with
  | (err, ai') => modify (set_ai ai') ;;; ret err
  end.

(** [for i, v := range b.QueryTxs]: failures are logged only. *)
Fixpoint addResponses (txs : list QueryAsTx) : M unit :=
  match txs with
  | [] => ret tt
  | v :: rest =>
      ierr <- AddResponse (TxResponse v) ;;
      logIfErr LWarning "failed to add Response to ackIndex" ierr ;;;
      addResponses rest
  end.

(** [for i, v := range b.Acks]: failures are logged only. *)
Fixpoint removeAcks (acks : list SignedAckHeader) : M unit :=
  match acks with
  | [] => ret tt
  | v :: rest =>
      ierr <- remove v ;;
      logIfErr LWarning "failed to remove Ack from ackIndex" ierr ;;;
      removeAcks rest
  end.

(** [pushBlock] pushes the signed block header to extend the current main
    chain. *)
Definition pushBlock (b : Block) : M (option error) :=
  c <- get ;;
  let h := getHeightFromTime (rt c) (Timestamp b) in
  pn <- newBlockNode h b (node (getHead (rt c))) ;;
  let p := pn.1 in
  let n := pn.2 in
  let head := {| node := Some p; Head := bn_hash n; Height := bn_height n |} in
  let blockKey := Bytes.ConcatAll [metaBlockIndex; indexKey n] in
  match EncodeBlock b with
  | inl e => ret (Some e)
  | inr encBlock =>
      (* Put block *)
      c1 <- get ;;
      match Store_Put blockKey encBlock (bdb c1) with
      | (Some e, _) => ret (Some (ErrWrap e "put %s"))
      | (None, bdb') =>
          modify (set_bdb bdb') ;;;
          modify (fun c => set_rt (rt_setHead head (rt c)) c) ;;;
          modify (fun c => set_bi (addBlock (bn_hash n) p (bi c)) c) ;;;
          (* Keep track of the queries from the new block *)
          addResponses (QueryTxs b) ;;;
          removeAcks (Acks b) ;;;
          (* the log entry slices [b.Producer()[:8]] *)
          (if (String.length (Producer b) <? 8)%nat
           then panic "slice bounds out of range"
           else logAt LInfo "pushed new block") ;;;
          ret None
      end
  end.

(** [pushAckedQuery] pushes an acknowledged, signed and verified query
    into the chain. *)
Definition pushAckedQuery (ack : SignedAckHeader) : M (option error) :=
  c <- get ;;
  let h := getHeightFromTime (rt c) (GetResponseTimestamp ack) in
  let k := heightToKey h in
  match EncodeAck ack with
  | inl e => ret (Some e)
  | inr enc =>
      let tdbKey := Bytes.ConcatAll [metaAckIndex; k; AckHash ack] in
      err <- register ack ;;
      match err with
      | Some e => ret (Some (ErrWrap e "register ack %v at height %d"))
      | None =>
          c1 <- get ;;
          match Store_Put tdbKey enc (tdb c1) with
          | (Some e, _) => ret (Some (ErrWrap e "put ack %d %s"))
          | (None, tdb') => modify (set_tdb tdb') ;;; ret None
          end
      end
  end.

(** [st.ReplayBlockWithContext(ctx, block)] *)
Definition replayBlock (block : Block) : M (option error) :=
  c <- get ;;
  emit (EvReplayBlock block) ;;;
  match ReplayBlockWithContext (st c) block with
  | (err, st') => modify (set_st st') ;;; ret err
  end.

(** [CheckAndPushNewBlock] implements ChainRPCServer.CheckAndPushNewBlock. *)
Definition CheckAndPushNewBlock (block : Block) : M (option error) :=
  c <- get ;;
  let height := getHeightFromTime (rt c) (Timestamp block) in
  let head := getHead (rt c) in
  let peers := getPeers (rt c) in
  let total := Int.to_int32 (Z.of_nat (length (Servers peers))) in
  let next :=
    if 0 <? total then Int.rem32 (Int.sub32 (getNextTurn (rt c)) 1) total
    else -1 in
  if (Height head =? height) && bool_decide (Head head = BlockHash block) then
    (* Maybe already set by FetchBlock *)
    ret None
  else if negb (bool_decide (ParentHash block = Head head)) then
    logAt LError "invalid new block for the current chain" ;;;
    ret (Some ErrInvalidBlock)
  else
    (* Verify block signatures *)
    match VerifyBlock block with
    | Some e => logAt LError "failed to verify block" ;;; ret (Some e)
    | None =>
        (* Short circuit the checking process if it's a self-produced block *)
        if bool_decide (Producer block = server (rt c)) then pushBlock block
        else
          (* Check block producer *)
          match Find peers (Producer block) with
          | None =>
              logAt LError "unknown producer of new block" ;;;
              ret (Some ErrUnknownProducer)
          | Some index =>
              if negb (index =? next) then
                logAt LError "invalid producer of new block" ;;;
                ret (Some ErrInvalidProducer)
              else
                (* Replicate local state from the new block *)
                err <- replayBlock block ;;
                match err with
                | Some e => logAt LError "failed to replay new block" ;;; ret (Some e)
                | None => pushBlock block
                end
          end
    end.

(** [VerifyAndPushAckedQuery] verifies an acknowledged and signed query,
    and pushes it if valid. *)
Definition VerifyAndPushAckedQuery (ack : SignedAckHeader) : M (option error) :=
  c <- get ;;
  if queryTimeIsExpired (rt c) (GetResponseTimestamp ack) then
    ret (Some (ErrWrap ErrQueryExpired
                 "Verify ack query, min valid height %d, ack height %d"))
  else
    match VerifyAck ack with
    | Some e => ret (Some e)
    | None => pushAckedQuery ack
    end.

(** ** The turn runner *)

(** [for !v.Ready()]: sleep a tenth of a period between polls and give up
    with the context's error once it is cancelled. *)
Fixpoint waitReady (polls : nat) (cerr : option error) : option error :=
  match polls with
  | O => None
  | S polls' =>
      match cerr with
      | Some e => Some e
      | None => waitReady polls' cerr
      end
  end.

(** [for i, v := range qts]: wait for each tracker in turn and pack it. *)
Fixpoint packTrackers (qts : list QueryTracker) (cerr : option error)
    : error + list QueryAsTx :=
  match qts with
  | [] => inr []
  | v :: rest =>
      match waitReady (qtPolls v) cerr with
      | Some e => inl e
      | None =>
          match packTrackers rest cerr with
          | inl e => inl e
          | inr txs =>
              inr ({| TxRequest := qtReq v; TxResponse := qtResp v |} :: txs)
          end
      end
  end.

(** [for _, s := range peers.Servers]: advise every peer but oneself; the
    calls run in parallel in the source and are listed here in peer
    order. *)
Fixpoint advisePeers (servers : list NodeID) (self : NodeID) (block : Block)
    (count : Z) : M unit :=
  match servers with
  | [] => ret tt
  | s :: rest =>
      (if negb (bool_decide (s = self)) then
         emit (EvAdviseNewBlock s block count) ;;;
         logIfErr LError "failed to advise new block" (AdviseNewBlock s block count)
       else ret tt) ;;;
      advisePeers rest self block count
  end.

(** [produceBlock] prepares, signs and advises the pending block to the
    other peers. The send on the pending-block channel is taken when the
    context is live, the cancellation case when it is cancelled. *)
Definition produceBlock (now : Time) : M (option error) :=
  c <- get ;;
  emit EvCommitEx ;;;
  match CommitEx (st c) with
  | (frs, qts, Some e, st') =>
      modify (set_st st') ;;;
      ret (Some (ErrWrap e "failed to fetch query list from db state"))
  | (frs, qts, None, st') =>
      modify (set_st st') ;;;
      if (length frs =? 0)%nat && (length qts =? 0)%nat then ret None
      else
        match packTrackers qts (ctxErr (rt c)) with
        | inl e => ret (Some e)
        | inr txs =>
            let block :=
              {| Version := 16777216;
                 Producer := getServer (rt c);
                 GenesisHash := genesisHash (rt c);
                 ParentHash := Head (getHead (rt c));
                 MerkleRoot := [];
                 Timestamp := now;
                 BlockHash := [];
                 Signee := [];
                 Signature := [];
                 FailedReqs := frs;
                 QueryTxs := txs;
                 Acks := ai_acks (getHeightFromTime (rt c) now) (ai c) |} in
            (* Sign block *)
            match PackAndSignBlock (pk c) block with
            | inl e => ret (Some e)
            | inr block =>
                (* Send to pending list *)
                match ctxErr (rt c) with
                | Some e => logAt LInfo "abort block producing" ;;; ret (Some e)
                | None =>
                    emit (EvSendBlock block) ;;;
                    modify (fun c => set_blocks (blocks c ++ [block]) c) ;;;
                    (* Advise new block to the other peers *)
                    let count :=
                      match lookupNode (BlockHash block) (bi c) ≫= (fun p => nodes c !! p) with
                      | Some nd => bn_count nd
                      | None =>
                          match lookupNode (ParentHash block) (bi c) ≫= (fun p => nodes c !! p) with
                          | Some pn => Int.add32 (bn_count pn) 1
                          | None => -1
                          end
                      end in
                    advisePeers (Servers (getPeers (rt c))) (getServer (rt c)) block count ;;;
                    ret None
                end
            end
        end
  end.

(** First loop of [pruneBlockCache]: move to the last count position. *)
Fixpoint pruneSkip (fuel : nat) (heap : list blockNode) (p : option ptr)
    (lastCnt : Z) : option ptr :=
  match fuel with
  | O => None
  | S fuel' =>
      match p with
      | None => None
      | Some i =>
          match heap !! i with
          | None => None
          | Some n =>
              if lastCnt <? bn_count n
              then pruneSkip fuel' heap (bn_parent n) lastCnt
              else Some i
          end
      end
  end.

(** Second loop of [pruneBlockCache]: prune block references. *)
Fixpoint pruneDrop (fuel : nat) (heap : list blockNode) (p : option ptr)
    : list blockNode :=
  match fuel with
  | O => heap
  | S fuel' =>
      match p with
      | None => heap
      | Some i =>
          match heap !! i with
          | None => heap
          | Some n =>
              match bn_block n with
              | None => heap
              | Some _ =>
                  pruneDrop fuel'
                    (<[i := {| bn_parent := bn_parent n; bn_hash := bn_hash n;
                               bn_height := bn_height n; bn_count := bn_count n;
                               bn_block := None |}]> heap)
                    (bn_parent n)
              end
          end
      end
  end.

Definition pruneBlockCache : M unit :=
  emit EvPruneBlockCache ;;;
  c <- get ;;
  match node (getHead (rt c)) ≫= (fun p => nodes c !! p) with
  | None => ret tt
  | Some head =>
      let lastCnt := Int.sub32 (bn_count head) (blockCacheTTL (rt c)) in
      let fuel := length (nodes c) in
      let p := pruneSkip fuel (nodes c) (node (getHead (rt c))) lastCnt in
      modify (set_nodes (pruneDrop fuel (nodes c) p))
  end.

(** [stat] prints the chain and SQL-state counters. *)
Definition stat : M unit := emit EvStat.

(** [c.rt.setNextTurn()] *)
Definition setNextTurn : M unit :=
  emit EvSetNextTurn ;;;
  modify (fun c => set_rt (rt_setNextTurn (rt c)) c).

(** [c.ai.advance(minValid)] *)
Definition advance (minValid : Z) : M unit :=
  emit (EvAckAdvance minValid) ;;;
  modify (fun c => set_ai (ai_advance minValid (ai c)) c).

(** [c.heights <- h] *)
Definition sendHeight (h : Z) : M unit :=
  emit (EvSendHeight h) ;;;
  modify (fun c => set_heights (heights c ++ [h]) c).

(** The deferred function of [runCurrentTurn]. *)
Definition runCurrentTurn_deferred : M unit :=
  stat ;;;
  pruneBlockCache ;;;
  setNextTurn ;;;
  c <- get ;;
  advance (getMinValidHeight (rt c)) ;;;
  (* Info the block processing goroutine that the chain height has grown *)
  c <- get ;;
  sendHeight (Height (getHead (rt c))).

(** [runCurrentTurn] does the check and runs block producing if it is my
    turn. *)
Definition runCurrentTurn (now : Time) : M unit :=
  defer
    (c <- get ;;
     (if Height (getHead (rt c)) <? Int.sub32 (getNextTurn (rt c)) 1
      then logAt LError "a block will be skipped" else ret tt) ;;;
     if negb (isMyTurn (rt c)) then ret tt
     else
       err <- produceBlock now ;;
       logIfErr LError "failed to produce block" err)
    runCurrentTurn_deferred.

(** ** Fetching blocks *)

Definition fetchBlockByIndexKey (c : Chain) (indexKey : list byte)
    : option Block * option error :=
  let k := Bytes.ConcatAll [metaBlockIndex; indexKey] in
  match Store_Get k (bdb c) with
  | inl e => (None, Some (ErrWrap e "fetch block %s"))
  | inr v =>
      match DecodeBlock v with
      | inl e => (None, Some (ErrWrap e "fetch block %s"))
      | inr b => (Some b, None)
      end
  end.

(** [FetchBlock] fetches the block at specified height from local cache. *)
Definition FetchBlock (c : Chain) (height : Z) : option Block * option error :=
  match ancestor (nodes c) (node (getHead (rt c))) height with
  | Some n => fetchBlockByIndexKey c (indexKey n)
  | None => (None, None)
  end.

(** ** Billing *)

Abbreviation usersMapT := (gmap AccountAddress Z).
Abbreviation minersMapT := (gmap AccountAddress (gmap AccountAddress Z)).

(** [usersMap[user] += v] *)
Definition addUser (user : AccountAddress) (v : Z) (usersMap : usersMapT) : usersMapT :=
  <[user := Int.add64 (default 0 (usersMap !! user)) v]> usersMap.

(** [minersMap[user][miner] += v], the inner map being there. *)
Definition addMiner (user miner : AccountAddress) (v : Z) (minersMap : minersMapT)
    : minersMapT :=
  let inner := default ∅ (minersMap !! user) in
  <[user := <[miner := Int.add64 (default 0 (inner !! miner)) v]> inner]> minersMap.

(** [for _, tx := range block.QueryTxs] *)
Fixpoint billQueryTxs (txs : list QueryAsTx) (usersMap : usersMapT)
    (minersMap : minersMapT) : (error * string) + (usersMapT * minersMapT) :=
  match txs with
  | [] => inr (usersMap, minersMap)
  | tx :: rest =>
      let minerAddr := ResponseAccount (TxResponse tx) in
      match PubKeyHash (ReqSignee (ReqHeader (TxRequest tx))) with
      | inl e => inl (e, "billing fail: miner addr")
      | inr userAddr =>
          let minersMap :=
            match minersMap !! userAddr with
            | Some _ => minersMap
            | None => <[userAddr := ∅]> minersMap
            end in
          let v :=
            if bool_decide (QueryType_ (ReqHeader (TxRequest tx)) = ReadQuery)
            then RowCount (TxResponse tx)
            else Int.to_uint64 (AffectedRows (TxResponse tx)) in
          billQueryTxs rest (addUser userAddr v usersMap)
            (addMiner userAddr minerAddr v minersMap)
      end
  end.

(** [for _, req := range block.FailedReqs] *)
Fixpoint billFailedReqs (signee : PublicKey) (reqs : list Request)
    (usersMap : usersMapT) (minersMap : minersMapT)
    : (error * string) + (usersMapT * minersMapT) :=
  match reqs with
  | [] => inr (usersMap, minersMap)
  | req :: rest =>
      match PubKeyHash signee with
      | inl e => inl (e, "billing fail: miner addr")
      | inr minerAddr =>
          match PubKeyHash (ReqSignee (ReqHeader req)) with
          | inl e => inl (e, "billing fail: user addr")
          | inr userAddr =>
              let minersMap :=
                match minersMap !! userAddr ≫= (fun inner => inner !! minerAddr) with
                | Some _ => minersMap
                | None => <[userAddr := ∅]> minersMap
                end in
              let v := Int.to_uint64 (Z.of_nat (length (Queries (Payload req)))) in
              billFailedReqs signee rest (addUser userAddr v usersMap)
                (addMiner userAddr minerAddr v minersMap)
          end
      end
  end.

(** What the sweep of the window ends with. *)
Inductive sweep : Type :=
| SweepDone (usersMap : usersMapT) (minersMap : minersMapT)
| SweepErr (e : error) (warning : option string)
| SweepPanic (msg : string).

(** [for i = 0; i < c.updatePeriod && node != nil; i++] *)
Fixpoint billingSweep (fuel : nat) (c : Chain) (node : option ptr)
    (usersMap : usersMapT) (minersMap : minersMapT) : sweep :=
  match fuel with
  | O => SweepDone usersMap minersMap
  | S fuel' =>
      match node with
      | None => SweepDone usersMap minersMap
      | Some p =>
          match nodes c !! p with
          | None => SweepPanic "invalid memory address or nil pointer dereference"
          | Some n =>
              let fetched :=
                match bn_block n with
                | Some b => (Some b, None)
                | None => FetchBlock c (bn_height n)   (* Not cached, recover from storage *)
                end in
              match fetched with
              | (_, Some e) => SweepErr e None
              | (None, None) =>
                  SweepPanic "invalid memory address or nil pointer dereference"
              | (Some block, None) =>
                  match billQueryTxs (QueryTxs block) usersMap minersMap with
                  | inl (e, w) => SweepErr e (Some w)
                  | inr (usersMap, minersMap) =>
                      match billFailedReqs (Signee block) (FailedReqs block)
                              usersMap minersMap with
                      | inl (e, w) => SweepErr e (Some w)
                      | inr (usersMap, minersMap) =>
                          billingSweep fuel' c (bn_parent n) usersMap minersMap
                      end
                  end
              end
          end
      end
  end.

Definition zeroAddress : AccountAddress := replicate 32 x00.

(** The per-user costs, each with its per-miner incomes, in the iteration
    order of the maps. *)
Definition buildUsers (usersMap : usersMapT) (minersMap : minersMapT) : list UserCost :=
  (fun uc : AccountAddress * Z =>
     {| User := uc.1; Cost := uc.2;
        Miners := (fun mi : AccountAddress * Z => {| Miner := mi.1; Income := mi.2 |})
                    <$> map_to_list (default ∅ (minersMap !! uc.1)) |})
    <$> map_to_list usersMap.

(** [billing]: the named results [(ub, err)]. *)
Definition billing (node : option ptr) : M (option UpdateBilling * option error) :=
  c <- get ;;
  match billingSweep (Z.to_nat (updatePeriod c)) c node ∅ ∅ with
  | SweepPanic msg => panic msg
  | SweepErr e w =>
      match w with
      | Some msg => logAt LWarning msg
      | None => ret tt
      end ;;;
      ret (None, Some e)
  | SweepDone usersMap minersMap =>
      let ub := {| Receiver := zeroAddress; Users := buildUsers usersMap minersMap;
                   Nonce := 0; UBSignature := [] |} in
      match DatabaseAccountAddress (databaseID c) with
      | inl e => ret (Some ub, Some e)
      | inr a =>
          ret (Some {| Receiver := a; Users := Users ub; Nonce := Nonce ub;
                       UBSignature := UBSignature ub |}, None)
      end
  end.

(** ** The ingest loop *)

(** What the [select] of [processBlocks] received. *)
Inductive incoming : Type :=
| InHeight (h : Z)
| InBlock (block : Block).

(** The billing round of [processBlocks], run when the new head count is
    divisible by the update period. *)
Definition billingRound (head : state) : M unit :=
  c <- get ;;
  r <- billing (node head) ;;
  let ub := r.1 in
  logIfErr LError "billing failed" r.2 ;;;
  (* allocate nonce *)
  emit (EvNextAccountNonce (addr c)) ;;;
  match NextAccountNonce (addr c) with
  | (err, nonce) =>
      logIfErr LWarning "allocate nonce for transaction failed" err ;;;
      match ub with
      | None => panic "invalid memory address or nil pointer dereference"
      | Some ub =>
          let ub := {| Receiver := Receiver ub; Users := Users ub; Nonce := nonce;
                       UBSignature := UBSignature ub |} in
          emit (EvSignUpdateBilling ub) ;;;
          match SignUpdateBilling (pk c) ub with
          | (err, ub) =>
              logIfErr LWarning "sign tx failed" err ;;;
              emit (EvAddTx ub) ;;;
              logIfErr LWarning "send tx failed" (AddTx ub)
          end
      end
  end.

(** One turn of the [for]/[select] loop of [processBlocks], with the stash
    it carries. The stash handed back on a new height is re-enqueued in
    order. *)
Definition processBlocks_step (stash : list Block) (i : incoming) : M (list Block) :=
  match i with
  | InHeight h =>
      (* Return all stashed blocks to pending channel *)
      modify (fun c => set_blocks (blocks c ++ stash) c) ;;;
      ret []
  | InBlock block =>
      c <- get ;;
      let height := getHeightFromTime (rt c) (Timestamp block) in
      if Int.sub32 (getNextTurn (rt c)) 1 <? height then
        (* Stash newer blocks for later check *)
        ret (stash ++ [block])
      else if height <? Int.sub32 (getNextTurn (rt c)) 1 then
        ret stash
      else
        err <- CheckAndPushNewBlock block ;;
        match err with
        | Some _ => logAt LError "failed to check and push new block" ;;; ret stash
        | None =>
            c <- get ;;
            let head := getHead (rt c) in
            match node head ≫= (fun p => nodes c !! p) with
            | None => panic "invalid memory address or nil pointer dereference"
            | Some n =>
                let currentCount := Int.to_uint64 (bn_count n) in
                if updatePeriod c =? 0 then panic "integer divide by zero"
                else if currentCount mod updatePeriod c =? 0 then
                  billingRound head ;;; ret stash
                else ret stash
            end
        end
  end.

End Methods.

(** ** Vocabulary of the results *)

Section Vocabulary.

Context {X : Collaborators}.

(** The block is the current head: same hash, at the head's height. *)
Definition isHead (c : Chain) (b : Block) : Prop :=
  Height (getHead (rt c)) = getHeightFromTime (rt c) (Timestamp b)
  /\ Head (getHead (rt c)) = BlockHash b.

(** The key [pushBlock] writes the block under: tag, height, hash. *)
Definition blockKey (c : Chain) (b : Block) : list byte :=
  Bytes.ConcatAll
    [metaBlockIndex;
     Bytes.ConcatAll [heightToKey (getHeightFromTime (rt c) (Timestamp b)); BlockHash b]].

(** The key [pushAckedQuery] writes the ack under: tag, height of the
    ack's response timestamp, ack hash. *)
Definition ackKey (c : Chain) (ack : SignedAckHeader) : list byte :=
  Bytes.ConcatAll
    [metaAckIndex;
     heightToKey (getHeightFromTime (rt c) (GetResponseTimestamp ack));
     AckHash ack].

(** Same runtime (clock, peers, head, next turn), heap, height channel,
    stores and block index. *)
Definition sameTurnState (c c' : Chain) : Prop :=
  rt c' = rt c /\ nodes c' = nodes c /\ heights c' = heights c
  /\ bdb c' = bdb c /\ tdb c' = tdb c /\ bi c' = bi c.

(** The same, and the same ack index: all but the SQL state and the
    pending-block channel. *)
Definition sameButPending (c c' : Chain) : Prop :=
  sameTurnState c c' /\ ai c' = ai c.

(** [runs R E m]: from every chain, [m] returns (it does not panic), the
    chain it leaves is related by [R] to the one it found, and every call
    it makes satisfies [E]. *)
Definition runs {A : Type} (R : relation Chain) (E : Event -> Prop) (m : M A) : Prop :=
  forall c, exists a c' t,
    m c = (Ret a, c', t) /\ R c c' /\ Forall E t.

(** No constraint on the calls made. *)
Definition anyEvent (e : Event) : Prop := True.



End Vocabulary.

(** ** A small committee

    Collaborators and a three-peer chain (P0, P1, P2; period 10, update
    period 1, query TTL 3) on which the results are run. Signatures are
    valid when present, an address is its public key, the codec writes a
    block as its hash, the SQL state is the list of replayed blocks. *)

Module Demo.

#[local] Instance collaborators : Collaborators := {|
  SQLState := list Block;
  CommitEx := fun s => ([], [], None, s);
  ReplayBlockWithContext := fun s b => (None, b :: s);
  EncodeBlock := fun b => inr (BlockHash b);
  DecodeBlock := fun _ => inl (ErrNew "msgpack: decode failed");
  EncodeAck := fun a => inr (AckHash a);
  VerifyBlock := fun b =>
    match Signature b with
    | [] => Some (ErrNew "signature verification failed")
    | _ => None
    end;
  VerifyAck := fun a =>
    match RespSignature (AckResponse a) with
    | [] => Some (ErrNew "signature verification failed")
    | _ => None
    end;
  PackAndSignBlock := fun k b => inr b;
  PubKeyHash := fun k =>
    match k with
    | [] => inl (ErrNew "nil public key")
    | _ => inr k
    end;
  DatabaseAccountAddress := fun d =>
    if bool_decide (d = "db") then inr [x01] else inl (ErrNew "invalid database id");
  SignUpdateBilling := fun k ub => (None, ub);
  NextAccountNonce := fun a => (None, 7);
  AddTx := fun ub => None;
  AdviseNewBlock := fun _ _ _ => None;
|}.

Definition rt0 : runtime := {|
  chainInitTime := 0; genesisHash := [x00]; period := 10;
  server := "P0-server";
  peers := {| Servers := ["P0-server"; "P1-server"; "P2-server"] |};
  rt_head := {| node := None; Head := []; Height := 0 |};
  nextTurn := 1; queryTTL := 3; blockCacheTTL := 30; ctxErr := None |}.

Definition healthy : Store := {| kv_data := []; kv_fault := None |}.
Definition broken : Store :=
  {| kv_data := []; kv_fault := Some (ErrNew "leveldb: closed") |}.

(** A fresh chain for database [db]. *)
Definition fresh (db : DatabaseID) : Chain := {|
  bdb := healthy; tdb := healthy; bi := newBlockIndex; ai := newAckIndex;
  st := []; rt := rt0; nodes := []; blocks := []; heights := [];
  databaseID := db; tokenType := 0; gasPrice := 1; updatePeriod := 1;
  pk := [x09]; addr := [x0a] |}.

Definition request (qt : QueryType) (signee : PublicKey) (queries : nat) : Request :=
  {| ReqHeader := {| QueryType_ := qt; ReqSignee := signee; ReqTimestamp := 0 |};
     Payload := {| Queries := replicate queries "select 1" |} |}.

Definition response (reqT respT : Time) (miner : AccountAddress) (rows affected : Z)
    : SignedResponseHeader :=
  {| RespRequestTimestamp := reqT; RespTimestamp := respT;
     ResponseAccount := miner; RowCount := rows; AffectedRows := affected;
     RespHash := [x33]; RespSignature := [x01] |}.

Definition block (producer : NodeID) (parent hash : Hash) (t : Time)
    (frs : list Request) (txs : list QueryAsTx) : Block :=
  {| Version := 16777216; Producer := producer; GenesisHash := [x00];
     ParentHash := parent; MerkleRoot := []; Timestamp := t;
     BlockHash := hash; Signee := [x0b]; Signature := [x01];
     FailedReqs := frs; QueryTxs := txs; Acks := [] |}.

(** The genesis block, and the chain once it is pushed. *)
Definition genesisBlock : Block := block "P0-server" [] [x00] 0 [] [].

Definition after {A : Type} (m : M A) (c : Chain) : Chain := (m c).1.2.

Definition started (db : DatabaseID) : Chain := after (pushBlock genesisBlock) (fresh db).

(** The chain after the first tick (t = 10): it was P0's turn, there was
    nothing to commit, and next-turn is now 2, so that P1 is expected. *)
Definition turn2 (db : DatabaseID) : Chain := after (runCurrentTurn 10) (started db).

(** The chain once P1's empty block for turn 2 is the head. *)
Definition atBlock1 (db : DatabaseID) : Chain :=
  after (CheckAndPushNewBlock (block "P1-server" [x00] [x01] 10 [] [])) (turn2 db).

(** Accounts: a user and two miners. *)
Definition userU : AccountAddress := [x55].
Definition minerM1 : AccountAddress := [x0c].
Definition minerM2 : AccountAddress := [x0b].

(** P1's block for turn 2 (height 1), extending genesis. *)
Definition block1 (frs : list Request) (txs : list QueryAsTx) : Block :=
  block "P1-server" [x00] [x01] 10 frs txs.

(** The same block as sent by a node that is not a peer, and by P2 out of
    turn. *)
Definition strangerBlock : Block := block "P9-server" [x00] [x01] 10 [] [].
Definition outOfTurnBlock : Block := block "P2-server" [x00] [x01] 10 [] [].

(** A block that does not extend the head. *)
Definition orphanBlock : Block := block "P1-server" [x07] [x01] 10 [] [].

(** A read of ten rows by user U served by miner M1. *)
Definition readTx : QueryAsTx :=
  {| TxRequest := request ReadQuery userU 1;
     TxResponse := response 0 0 minerM1 10 0 |}.

(** A query whose request carries no public key. *)
Definition unsignedTx : QueryAsTx :=
  {| TxRequest := request ReadQuery [] 1;
     TxResponse := response 0 0 minerM1 10 0 |}.

(** A write by user U that affected three rows, served by miner M2. *)
Definition writeTx : QueryAsTx :=
  {| TxRequest := request WriteQuery userU 1;
     TxResponse := response 0 0 minerM2 0 3 |}.

(** A failed request of user U, one query long; the block that carries it
    is signed by [x0b], miner M2. *)
Definition failedReq : Request := request WriteQuery userU 1.

(** A chain whose head is at height 10 (min-valid-height 7) and whose ack
    index holds, in bucket 2, a response to a request made at t = 20. *)
Definition staleResponse : SignedResponseHeader := response 20 80 minerM1 1 0.

Definition block10 : Block :=
  block "P1-server" [x00] [x0a] 100 []
    [{| TxRequest := request ReadQuery userU 1; TxResponse := staleResponse |}].

Definition height10 : Chain := after (pushBlock block10) (started "db").

(** Its ack: request at height 2, below the window; response at height 8,
    inside it. *)
Definition staleAck : SignedAckHeader :=
  {| AckResponse := staleResponse; AckTimestamp := 85; AckHash := [x44] |}.



End Demo.

(** * Theorems *)

Section KeyFacts.

Local Lemma byte_to_of_Z z : Bytes.byte_to_Z (Bytes.byte_of_Z z) = z mod 256.
Proof.
  unfold Bytes.byte_to_Z, Bytes.byte_of_Z.
  assert (Hr : 0 <= z mod 256 < 256) by (apply Z.mod_pos_bound; lia).
  destruct (Byte.of_N (Z.to_N (z mod 256))) as [b|] eqn:E.
  - apply Byte.to_of_N in E. rewrite E. lia.
  - apply Byte.of_N_None_iff in E. lia.
Qed.

Local Lemma Uint32_PutUint32 u rest :
  0 <= u < 2 ^ 32 -> Bytes.Uint32 (Bytes.PutUint32 u ++ rest) = Some u.
Proof.
  intros Hu. unfold Bytes.Uint32, Bytes.PutUint32. cbn [app]. f_equal.
  rewrite !byte_to_of_Z.
  change 256 with (2 ^ 8).
  apply Z.bits_inj'. intros n Hn.
  rewrite !Z.lor_spec, !Z.shiftl_spec by lia.
  destruct (Z_lt_dec n 8) as [H8|H8].
  { rewrite Z.mod_pow2_bits_low by lia.
    rewrite (Z.testbit_neg_r _ (n - 8)), (Z.testbit_neg_r _ (n - 16)),
      (Z.testbit_neg_r _ (n - 24)) by lia.
    now rewrite !orb_false_r. }
  rewrite (Z.mod_pow2_bits_high u 8 n) by lia. simpl orb.
  destruct (Z_lt_dec n 16) as [H16|H16].
  { rewrite Z.mod_pow2_bits_low by lia.
    rewrite (Z.testbit_neg_r _ (n - 16)), (Z.testbit_neg_r _ (n - 24)) by lia.
    rewrite Z.shiftr_spec by lia. rewrite !orb_false_r. f_equal. lia. }
  rewrite (Z.mod_pow2_bits_high _ 8 (n - 8)) by lia. simpl orb.
  destruct (Z_lt_dec n 24) as [H24|H24].
  { rewrite Z.mod_pow2_bits_low by lia.
    rewrite (Z.testbit_neg_r _ (n - 24)) by lia.
    rewrite Z.shiftr_spec by lia. rewrite !orb_false_r. f_equal. lia. }
  rewrite (Z.mod_pow2_bits_high _ 8 (n - 16)) by lia. simpl orb.
  destruct (Z_lt_dec n 32) as [H32|H32].
  { rewrite Z.mod_pow2_bits_low by lia.
    rewrite Z.shiftr_spec by lia. f_equal. lia. }
  rewrite (Z.mod_pow2_bits_high _ 8 (n - 24)) by lia.
  symmetry. apply Z.bits_above_log2; [lia|].
  destruct (Z.eq_dec u 0) as [->|Hz]; [simpl; lia|].
  assert (2 ^ 32 <= 2 ^ n) by (apply Z.pow_le_mono_r; lia).
  apply Z.log2_lt_pow2; lia.
Qed.

Local Lemma to_int32_to_uint32 h :
  Int.in_int32 h -> Int.to_int32 (Int.to_uint32 h) = h.
Proof.
  unfold Int.in_int32, Int.int32_min, Int.int32_max, Int.to_int32, Int.to_uint32.
  intros Hh. rewrite Z.mod_mod by lia.
  destruct (Z_lt_dec h 0) as [Hneg|Hpos].
  - replace (h mod 2 ^ 32) with (h + 2 ^ 32).
    + destruct (Z.ltb_spec (h + 2 ^ 32) (2 ^ 31)); lia.
    + apply Z.mod_unique with (q := -1); lia.
  - rewrite Z.mod_small by lia.
    destruct (Z.ltb_spec h (2 ^ 31)); lia.
Qed.

(** A height behind a four-byte tag, in front of any hash bytes. *)
Lemma tagged_key_height (h : Z) (tag hash : list byte) :
  Int.in_int32 h -> length tag = 4%nat ->
  keyWithSymbolToHeight (tag ++ heightToKey h ++ hash) = h.
Proof.
  intros Hh Ht. unfold keyWithSymbolToHeight.
  rewrite !length_app, Ht. simpl length.
  destruct (Z.ltb_spec (Z.of_nat (4 + (4 + length hash))) 8) as [Hlt|_]; [lia|].
  rewrite drop_app_length' by (symmetry; exact Ht).
  unfold heightToKey.
  assert (Hu : 0 <= Int.to_uint32 h < 2 ^ 32)
    by (apply Z.mod_pos_bound; lia).
  rewrite Uint32_PutUint32 by exact Hu.
  now apply to_int32_to_uint32.
Qed.

(** C9. A height written by [heightToKey] behind a four-byte tag and in
    front of any hash bytes is read back unchanged by
    [keyWithSymbolToHeight], for every int32 height; and every key shorter
    than eight bytes decodes to -1. *)
Theorem key_height_roundtrip :
  (forall (h : Z) (tag hash : list byte),
      Int.in_int32 h -> length tag = 4%nat ->
      keyWithSymbolToHeight (tag ++ heightToKey h ++ hash) = h)
  /\ (forall k : list byte,
         (length k < 8)%nat -> keyWithSymbolToHeight k = -1).
Proof.
  split.
  - exact tagged_key_height.
  - intros k Hk. unfold keyWithSymbolToHeight.
    destruct (Z.ltb_spec (Z.of_nat (length k)) 8); [reflexivity|lia].
Qed.

Lemma key_height_roundtrip_witness :
  keyWithSymbolToHeight (metaBlockIndex ++ heightToKey (-7) ++ [x01; x02]) = -7
  /\ keyWithSymbolToHeight [x42; x4c; x43] = -1.
Proof.
  split.
  - apply (proj1 key_height_roundtrip).
    + unfold Int.in_int32, Int.int32_min, Int.int32_max. lia.
    + reflexivity.
  - apply (proj2 key_height_roundtrip). simpl. lia.
Defined.

End KeyFacts.

(** ** Machine-integer facts *)

Lemma to_int32_id z : Int.in_int32 z -> Int.to_int32 z = z.
Proof.
  intros Hz. rewrite <- (to_int32_to_uint32 z Hz) at 2.
  unfold Int.to_int32, Int.to_uint32. now rewrite Z.mod_mod by lia.
Qed.

Lemma Find_from_range (servers : list NodeID) (key : NodeID) (i idx : Z) :
  0 <= i -> i + Z.of_nat (length servers) <= 2 ^ 31 ->
  Find_from i servers key = Some idx ->
  i <= idx < i + Z.of_nat (length servers).
Proof.
  revert i. induction servers as [|s rest IH]; intros i Hi Hlen; simpl.
  - discriminate.
  - simpl length in Hlen. case_bool_decide.
    + intros [= <-]. rewrite to_int32_id;
        unfold Int.in_int32, Int.int32_min, Int.int32_max; lia.
    + intros Hf. apply IH in Hf; lia.
Qed.

(** Go's remainder agrees with the mathematical residue whenever it is
    compared with a peer index. *)
Lemma rem_differs_from_index (a total idx : Z) :
  0 < total -> 0 <= idx -> idx <> a mod total -> idx <> Z.rem a total.
Proof.
  intros Ht Hidx Hne Heq. apply Hne. clear Hne.
  destruct (Z_le_gt_dec 0 a) as [Ha|Ha].
  - now rewrite <- Z.rem_mod_nonneg by lia.
  - pose proof (Z.rem_bound_pos_neg a total Ht ltac:(lia)) as Hb.
    assert (Hz : Z.rem a total = 0) by lia.
    apply Z.rem_mod_eq_0 in Hz; lia.
Qed.

(** ** The peer-block check and the push *)

Section EngineFacts.

Context {X : Collaborators}.

Lemma isHead_test_false (c : Chain) (b : Block) :
  ~ isHead c b ->
  (Height (getHead (rt c)) =? getHeightFromTime (rt c) (Timestamp b))
  && bool_decide (Head (getHead (rt c)) = BlockHash b) = false.
Proof.
  intros Hnot.
  destruct (Z.eqb_spec (Height (getHead (rt c)))
              (getHeightFromTime (rt c) (Timestamp b))) as [Hh|Hh]; simpl;
    [|reflexivity].
  apply bool_decide_eq_false_2. intros Hhash. apply Hnot. split; assumption.
Qed.

(** The keys the engine writes decode to the heights they were built
    from: the block's height for a block, the height of the response
    timestamp for an ack. *)
Lemma blockKey_height (c : Chain) (b : Block) :
  Int.in_int32 (getHeightFromTime (rt c) (Timestamp b)) ->
  keyWithSymbolToHeight (blockKey c b) = getHeightFromTime (rt c) (Timestamp b).
Proof.
  intros Hh.
  exact (tagged_key_height _ metaBlockIndex ((BlockHash b ++ []) ++ []) Hh eq_refl).
Qed.

Lemma ackKey_height (c : Chain) (ack : SignedAckHeader) :
  Int.in_int32 (getHeightFromTime (rt c) (GetResponseTimestamp ack)) ->
  keyWithSymbolToHeight (ackKey c ack)
  = getHeightFromTime (rt c) (GetResponseTimestamp ack).
Proof.
  intros Hh.
  exact (tagged_key_height _ metaAckIndex (AckHash ack ++ []) Hh eq_refl).
Qed.

(** C1, as amended. A block whose parent hash differs from the head hash,
    and which is not the current head itself, is rejected with
    [ErrInvalidBlock]; the chain (head, block index, ack index and all
    the rest) is left as it was, and nothing but the error log happens. *)
Theorem CheckAndPushNewBlock_parent_mismatch (c : Chain) (b : Block) :
  ParentHash b <> Head (getHead (rt c)) ->
  ~ isHead c b ->
  CheckAndPushNewBlock b c
  = (Ret (Some ErrInvalidBlock), c,
     [EvLog LError "invalid new block for the current chain"]).
Proof.
  intros Hparent Hnot. unfold CheckAndPushNewBlock, bind, get. simpl.
  rewrite (isHead_test_false c b Hnot).
  rewrite bool_decide_eq_false_2 by exact Hparent. reflexivity.
Qed.

(** A block that is the current head is accepted and nothing changes. *)
Lemma CheckAndPushNewBlock_head (c : Chain) (b : Block) :
  isHead c b -> CheckAndPushNewBlock b c = (Ret None, c, []).
Proof.
  intros [Hh Hhash]. unfold CheckAndPushNewBlock, bind, get. simpl.
  rewrite Hh, Z.eqb_refl. rewrite bool_decide_eq_true_2 by exact Hhash.
  reflexivity.
Qed.

#[local] Instance sameTurnState_preorder : PreOrder sameTurnState.
Proof.
  split.
  - intros c. repeat split.
  - intros c1 c2 c3 (A1 & A2 & A3 & A4 & A5 & A6) (B1 & B2 & B3 & B4 & B5 & B6).
    repeat split; congruence.
Qed.

#[local] Instance sameButPending_preorder : PreOrder sameButPending.
Proof.
  split.
  - intros c. split; reflexivity.
  - intros c1 c2 c3 [A1 A2] [B1 B2].
    split; [etransitivity; eassumption|congruence].
Qed.

Section Runs.

Context (R : relation Chain) `{!PreOrder R} (E : Event -> Prop).

Lemma runs_ret {A : Type} (a : A) : runs R E (ret a).
Proof.
  intros c. exists a, c, []. split; [reflexivity|].
  split; [reflexivity|constructor].
Qed.

Lemma runs_get : runs R E get.
Proof.
  intros c. exists c, c, []. split; [reflexivity|].
  split; [reflexivity|constructor].
Qed.

Lemma runs_emit (e : Event) : E e -> runs R E (emit e).
Proof.
  intros He c. exists tt, c, [e]. split; [reflexivity|].
  split; [reflexivity|]. constructor; [exact He|constructor].
Qed.

Lemma runs_modify (f : Chain -> Chain) :
  (forall c, R c (f c)) -> runs R E (modify f).
Proof.
  intros Hf c. exists tt, (f c), []. split; [reflexivity|].
  split; [apply Hf|constructor].
Qed.

Lemma runs_bind {A B : Type} (m : M A) (k : A -> M B) :
  runs R E m -> (forall a, runs R E (k a)) -> runs R E (bind m k).
Proof.
  intros Hm Hk c. destruct (Hm c) as (a & c1 & t1 & Em & R1 & F1).
  destruct (Hk a c1) as (b & c2 & t2 & Ek & R2 & F2).
  exists b, c2, (t1 ++ t2). unfold bind. rewrite Em, Ek.
  split; [reflexivity|]. split; [etransitivity; eassumption|].
  apply Forall_app. split; assumption.
Qed.

Lemma runs_logIfErr (level : LogLevel) (msg : string) (err : option error) :
  E (EvLog level msg) -> runs R E (logIfErr level msg err).
Proof.
  intros He. unfold logIfErr. destruct err; [now apply runs_emit|apply runs_ret].
Qed.

End Runs.

(** [runs_step] peels one layer of a monadic term. *)
Ltac runs_side :=
  lazymatch goal with
  | |- PreOrder _ => apply _
  | |- forall _, _ => intros ?
  | |- _ => idtac
  end.

Ltac runs_step :=
  lazymatch goal with
  | |- runs _ _ (bind _ _) => eapply runs_bind; runs_side
  | |- runs _ _ (ret _) => eapply runs_ret; runs_side
  | |- runs _ _ get => eapply runs_get; runs_side
  | |- runs _ _ (emit _) => eapply runs_emit; runs_side
  | |- runs _ _ (logAt _ _) => eapply runs_emit; runs_side
  | |- runs _ _ (logIfErr _ _ _) => eapply runs_logIfErr; runs_side
  | |- runs _ _ (modify _) => eapply runs_modify; runs_side
  | |- runs _ _ (match ?x with _ => _ end) => destruct x eqn:?
  | |- runs _ _ (if ?x then _ else _) => destruct x eqn:?
  | |- sameTurnState _ _ => repeat split
  | |- sameButPending _ _ => repeat split
  end.

Lemma addResponses_runs (txs : list QueryAsTx) :
  runs sameTurnState anyEvent (addResponses txs).
Proof.
  induction txs as [|v rest IH]; simpl.
  - apply runs_ret; apply _.
  - unfold AddResponse, ai_addResponse.
    repeat (first [exact IH | exact I | runs_step]).
Qed.

Lemma removeAcks_runs (acks : list SignedAckHeader) :
  runs sameTurnState anyEvent (removeAcks acks).
Proof.
  induction acks as [|v rest IH]; simpl.
  - apply runs_ret; apply _.
  - unfold remove.
    repeat (first [exact IH | exact I | runs_step]).
Qed.

(** A successful push makes the block the head. *)
Lemma pushBlock_sets_head (c c' : Chain) (b : Block) (t : list Event) :
  pushBlock b c = (Ret None, c', t) -> isHead c' b.
Proof.
  unfold pushBlock, newBlockNode, bind, get, modify, ret. simpl.
  destruct (EncodeBlock b) as [e|enc]; simpl; [discriminate|].
  unfold Store_Put. destruct (kv_fault (bdb c)) as [e|]; simpl; [discriminate|].
  match goal with |- context [addResponses ?txs ?c0] =>
    destruct (addResponses_runs txs c0) as (u1 & c1 & t1 & -> & (Hrt1 & _) & _) end.
  simpl.
  destruct (removeAcks_runs (Acks b) c1) as (u2 & c2 & t2 & -> & (Hrt2 & _) & _). simpl.
  destruct (String.length (Producer b) <? 8)%nat; unfold panic, logAt, emit; simpl.
  - discriminate.
  - intros [= <- _]. unfold isHead. rewrite Hrt2, Hrt1. simpl. split; reflexivity.
Qed.

(** C6. [CheckAndPushNewBlock] applied to a block that is the current head
    returns success and changes nothing; in particular a block just pushed
    by this node (a locally produced block) and advised back to it is a
    no-op. *)
Theorem CheckAndPushNewBlock_idempotent :
  (forall (c : Chain) (b : Block),
      isHead c b -> CheckAndPushNewBlock b c = (Ret None, c, []))
  /\ (forall (c c' : Chain) (b : Block) (t : list Event),
         pushBlock b c = (Ret None, c', t) ->
         CheckAndPushNewBlock b c' = (Ret None, c', [])).
Proof.
  split.
  - exact CheckAndPushNewBlock_head.
  - intros c c' b t Hpush. apply CheckAndPushNewBlock_head.
    exact (pushBlock_sets_head c c' b t Hpush).
Qed.

(** C5. When the put into the block store fails, [pushBlock] returns the
    store's error (wrapped); head state, block index and ack index, and
    both stores, the SQL state and the channels, are unchanged, and no
    node that was on the heap is touched: the only trace of the call is
    the node built for the block, which nothing points to. *)
Theorem pushBlock_put_failure (c : Chain) (b : Block) (enc : list byte)
    (e : error) (s : Store) :
  EncodeBlock b = inr enc ->
  Store_Put (blockKey c b) enc (bdb c) = (Some e, s) ->
  exists n : blockNode,
    pushBlock b c = (Ret (Some (ErrWrap e "put %s")), set_nodes (nodes c ++ [n]) c, [])
    /\ rt (set_nodes (nodes c ++ [n]) c) = rt c
    /\ bi (set_nodes (nodes c ++ [n]) c) = bi c
    /\ ai (set_nodes (nodes c ++ [n]) c) = ai c
    /\ bdb (set_nodes (nodes c ++ [n]) c) = bdb c
    /\ (forall p m, nodes c !! p = Some m -> (nodes c ++ [n]) !! p = Some m).
Proof.
  intros Henc Hput. unfold pushBlock, newBlockNode, bind, get, modify, ret. simpl.
  rewrite Henc. simpl. unfold blockKey in Hput. simpl in Hput.
  rewrite Hput. simpl.
  eexists. split; [reflexivity|]. repeat split.
  intros p m Hp. now apply lookup_app_l_Some.
Qed.

(** C7. A block that passes the parent-hash check (it extends the head and
    is not the head itself) and the signature check, and whose producer is
    not the local server, is rejected with [ErrUnknownProducer] when its
    producer is absent from the peer list, and with [ErrInvalidProducer]
    when the producer's peer index differs from (next-turn - 1) mod
    |peers|; in both cases the chain is left as it was and nothing but the
    error log happens: no replay, no push. *)
Theorem CheckAndPushNewBlock_producer_checks (c : Chain) (b : Block) :
  ~ isHead c b ->
  ParentHash b = Head (getHead (rt c)) ->
  VerifyBlock b = None ->
  Producer b <> server (rt c) ->
  (Find (getPeers (rt c)) (Producer b) = None ->
   CheckAndPushNewBlock b c
   = (Ret (Some ErrUnknownProducer), c,
      [EvLog LError "unknown producer of new block"]))
  /\ (forall index : Z,
         Z.of_nat (length (Servers (getPeers (rt c)))) <= Int.int32_max ->
         Int.in_int32 (getNextTurn (rt c) - 1) ->
         Find (getPeers (rt c)) (Producer b) = Some index ->
         index <> (getNextTurn (rt c) - 1)
                    mod Z.of_nat (length (Servers (getPeers (rt c)))) ->
         CheckAndPushNewBlock b c
         = (Ret (Some ErrInvalidProducer), c,
            [EvLog LError "invalid producer of new block"])).
Proof.
  intros Hnot Hparent Hsig Hprod.
  split.
  - intros Hfind. unfold CheckAndPushNewBlock, bind, get. cbv beta iota zeta.
    rewrite (isHead_test_false c b Hnot).
    rewrite bool_decide_eq_true_2 by exact Hparent. cbv [negb].
    rewrite Hsig. rewrite bool_decide_eq_false_2 by exact Hprod.
    rewrite Hfind. reflexivity.
  - intros index Hlen Hnt Hfind Hne.
    assert (Hnext :
      (index =?
         (if 0 <? Int.to_int32 (Z.of_nat (length (Servers (getPeers (rt c)))))
          then Int.rem32 (Int.sub32 (getNextTurn (rt c)) 1)
                 (Int.to_int32 (Z.of_nat (length (Servers (getPeers (rt c))))))
          else -1)) = false).
    { set (len := Z.of_nat (length (Servers (getPeers (rt c))))) in *.
      assert (Hidx : 0 <= index < len).
      { unfold Find in Hfind. apply Find_from_range in Hfind;
          unfold Int.int32_max in Hlen; fold len in Hfind |- *; lia. }
      assert (Hlen32 : Int.to_int32 len = len).
      { apply to_int32_id.
        unfold Int.in_int32, Int.int32_min, Int.int32_max in *. lia. }
      rewrite Hlen32.
      destruct (Z.ltb_spec 0 len) as [Hpos|]; [|lia].
      unfold Int.sub32, Int.rem32. rewrite (to_int32_id _ Hnt).
      pose proof (Z.rem_bound_abs (getNextTurn (rt c) - 1) len ltac:(lia)) as Hb.
      rewrite to_int32_id
        by (unfold Int.in_int32, Int.int32_min, Int.int32_max in *; lia).
      pose proof (rem_differs_from_index (getNextTurn (rt c) - 1) len index
                    Hpos (proj1 Hidx) Hne) as Hrem.
      now apply Z.eqb_neq. }
    unfold CheckAndPushNewBlock, bind, get. cbv beta iota zeta.
    rewrite (isHead_test_false c b Hnot).
    rewrite bool_decide_eq_true_2 by exact Hparent. cbv [negb].
    rewrite Hsig. rewrite bool_decide_eq_false_2 by exact Hprod.
    rewrite Hfind, Hnext. reflexivity.
Qed.

(** ** Acknowledged queries *)

(** [pushAckedQuery], run: encode, register, put. *)
Lemma pushAckedQuery_eq (ack : SignedAckHeader) (c : Chain) :
  pushAckedQuery ack c
  = match EncodeAck ack with
    | inl e => (Ret (Some e), c, [])
    | inr enc =>
        match ai_register (getHeightFromTime (rt c) (GetRequestTimestamp ack)) ack (ai c) with
        | (Some e, ai') =>
            (Ret (Some (ErrWrap e "register ack %v at height %d")), set_ai ai' c, [])
        | (None, ai') =>
            match Store_Put (ackKey c ack) enc (tdb c) with
            | (Some e, _) => (Ret (Some (ErrWrap e "put ack %d %s")), set_ai ai' c, [])
            | (None, tdb') => (Ret None, set_tdb tdb' (set_ai ai' c), [])
            end
        end
    end.
Proof.
  unfold pushAckedQuery, register, ackKey, bind, get, modify, ret.
  destruct (EncodeAck ack) as [e|enc]; [reflexivity|].
  destruct (ai_register _ ack (ai c)) as [[e|] ai']; [reflexivity|].
  simpl. destruct (Store_Put _ enc (tdb c)) as [[e|] tdb']; reflexivity.
Qed.

Lemma VerifyAndPushAckedQuery_eq (ack : SignedAckHeader) (c : Chain) :
  VerifyAndPushAckedQuery ack c
  = if queryTimeIsExpired (rt c) (GetResponseTimestamp ack)
    then (Ret (Some (ErrWrap ErrQueryExpired
                       "Verify ack query, min valid height %d, ack height %d")), c, [])
    else match VerifyAck ack with
         | Some e => (Ret (Some e), c, [])
         | None => pushAckedQuery ack c
         end.
Proof.
  unfold VerifyAndPushAckedQuery, bind, get, ret.
  destruct (queryTimeIsExpired (rt c) (GetResponseTimestamp ack)); [reflexivity|].
  destruct (VerifyAck ack); [reflexivity|].
  destruct (pushAckedQuery ack c) as [[r c'] t]. reflexivity.
Qed.



(** C10. [pushAckedQuery] registers the ack in the ack index, under the
    height of the ack's request timestamp, before it writes it to the
    query store, under the height of the ack's response timestamp. So for
    an ack that passes the expiry and signature checks and that the index
    accepts: when the put fails, [VerifyAndPushAckedQuery] returns the
    store's error while the ack stays registered in the index and the
    store is as it was; when the put succeeds, the ack is registered and
    stored. *)
Theorem VerifyAndPushAckedQuery_not_atomic (c : Chain) (ack : SignedAckHeader)
    (enc : list byte) (ai' : ackIndex) :
  queryTimeIsExpired (rt c) (GetResponseTimestamp ack) = false ->
  VerifyAck ack = None ->
  EncodeAck ack = inr enc ->
  ai_register (getHeightFromTime (rt c) (GetRequestTimestamp ack)) ack (ai c)
  = (None, ai') ->
  ai_registered (getHeightFromTime (rt c) (GetRequestTimestamp ack)) ack ai' = Some ack
  /\ (forall (e : error) (s : Store),
        Store_Put (ackKey c ack) enc (tdb c) = (Some e, s) ->
        VerifyAndPushAckedQuery ack c
        = (Ret (Some (ErrWrap e "put ack %d %s")), set_ai ai' c, [])
        /\ ai (set_ai ai' c) = ai'
        /\ tdb (set_ai ai' c) = tdb c)
  /\ (forall tdb' : Store,
        Store_Put (ackKey c ack) enc (tdb c) = (None, tdb') ->
        VerifyAndPushAckedQuery ack c
        = (Ret None, set_tdb tdb' (set_ai ai' c), [])).
Proof.
  intros Hexp Hverify Hencode Hreg.
  split; [|split].
  - unfold ai_register in Hreg. unfold ai_registered.
    match type of Hreg with context [ai_bucket ?h (ai c) !! ?k] =>
      destruct (ai_bucket h (ai c) !! k) as [tr|] end;
      [|discriminate].
    case_bool_decide; [|discriminate].
    injection Hreg as <-.
    unfold ai_bucket at 1. rewrite lookup_insert_eq. simpl.
    rewrite lookup_insert_eq. reflexivity.
  - intros e s Hput.
    rewrite VerifyAndPushAckedQuery_eq, Hexp, Hverify, pushAckedQuery_eq,
      Hencode, Hreg, Hput.
    repeat split.
  - intros tdb' Hput.
    rewrite VerifyAndPushAckedQuery_eq, Hexp, Hverify, pushAckedQuery_eq,
      Hencode, Hreg, Hput.
    reflexivity.
Qed.

(** ** The turn runner *)






(** ** The billing sweep and the billing round *)

(** A query tx credits its user and its miner and leaves what the user's
    other miners hold. *)
Lemma billQueryTxs_keeps_other_miners (tx : QueryAsTx) (user other : AccountAddress)
    (usersMap usersMap' : gmap AccountAddress Z)
    (minersMap minersMap' : gmap AccountAddress (gmap AccountAddress Z)) :
  PubKeyHash (ReqSignee (ReqHeader (TxRequest tx))) = inr user ->
  other <> ResponseAccount (TxResponse tx) ->
  billQueryTxs [tx] usersMap minersMap = inr (usersMap', minersMap') ->
  minersMap' !! user ≫= (fun inner => inner !! other)
  = minersMap !! user ≫= (fun inner => inner !! other).
Proof.
  intros Hu Hother. simpl. rewrite Hu. intros [= _ <-].
  unfold addMiner. rewrite lookup_insert_eq. simpl.
  destruct (minersMap !! user) as [inner|] eqn:Em.
  - rewrite Em. simpl. now rewrite lookup_insert_ne by congruence.
  - rewrite lookup_insert_eq. simpl. now rewrite lookup_insert_ne by congruence.
Qed.

(** A failed request whose miner holds nothing yet for the user replaces
    the user's miner map: whatever the user's other miners held is gone. *)
Lemma billFailedReqs_drops_other_miners (signee : PublicKey) (req : Request)
    (user miner other : AccountAddress)
    (usersMap usersMap' : gmap AccountAddress Z)
    (minersMap minersMap' : gmap AccountAddress (gmap AccountAddress Z)) :
  PubKeyHash signee = inr miner ->
  PubKeyHash (ReqSignee (ReqHeader req)) = inr user ->
  minersMap !! user ≫= (fun inner => inner !! miner) = None ->
  other <> miner ->
  billFailedReqs signee [req] usersMap minersMap = inr (usersMap', minersMap') ->
  minersMap' !! user ≫= (fun inner => inner !! other) = None
  /\ minersMap' !! user ≫= (fun inner => inner !! miner)
     = Some (Int.add64 0 (Int.to_uint64 (Z.of_nat (length (Queries (Payload req))))))
  /\ usersMap' !! user
     = Some (Int.add64 (default 0 (usersMap !! user))
               (Int.to_uint64 (Z.of_nat (length (Queries (Payload req)))))).
Proof.
  intros Hm Hu Hnone Hother. simpl. rewrite Hm, Hu, Hnone. intros [= <- <-].
  unfold addMiner, addUser. rewrite !lookup_insert_eq. simpl.
  rewrite lookup_insert_eq, lookup_insert_ne by congruence.
  rewrite lookup_empty. repeat split.
Qed.

(** [billing] reads the chain and leaves it as it is. *)
Lemma billing_reads_only (n : option ptr) (c c' : Chain)
    (r : result (option UpdateBilling * option error)) (t : list Event) :
  billing n c = (r, c', t) -> c' = c.
Proof.
  unfold billing, bind, get, ret, panic, logAt, emit.
  destruct (billingSweep _ c n ∅ ∅) as [u m|e [w|]|msg];
    [destruct (DatabaseAccountAddress (databaseID c))|..];
    intros [= _ <- _]; reflexivity.
Qed.

(** Whatever [billing] returns, error or not, the round goes on to request
    the account nonce; with an update in hand it then signs and submits
    it, without one it panics. *)
Lemma billingRound_requests_nonce (head : state) (c c1 : Chain)
    (ub : option UpdateBilling) (err : option error) (t1 : list Event) :
  billing (node head) c = (Ret (ub, err), c1, t1) ->
  exists t2 : list Event,
    (billingRound head c).2
    = t1 ++ match err with
            | Some _ => [EvLog LError "billing failed"]
            | None => []
            end
         ++ EvNextAccountNonce (addr c) :: t2
    /\ match ub with
       | Some u =>
           exists (signed : UpdateBilling) (t3 : list Event),
             t2 = match (NextAccountNonce (addr c)).1 with
                  | Some _ => [EvLog LWarning "allocate nonce for transaction failed"]
                  | None => []
                  end
                  ++ EvSignUpdateBilling
                       {| Receiver := Receiver u; Users := Users u;
                          Nonce := (NextAccountNonce (addr c)).2;
                          UBSignature := UBSignature u |}
                  :: match (SignUpdateBilling (pk c)
                              {| Receiver := Receiver u; Users := Users u;
                                 Nonce := (NextAccountNonce (addr c)).2;
                                 UBSignature := UBSignature u |}).1 with
                     | Some _ => [EvLog LWarning "sign tx failed"]
                     | None => []
                     end
                  ++ EvAddTx signed :: t3
       | None =>
           (billingRound head c).1.1
           = Panic "invalid memory address or nil pointer dereference"
       end.
Proof.
  intros Hb. pose proof (billing_reads_only _ _ _ _ _ Hb) as ->.
  unfold billingRound, bind, get. cbv beta iota zeta.
  rewrite Hb. cbv beta iota zeta.
  unfold logIfErr, logAt, emit, panic, ret. simpl.
  destruct (NextAccountNonce (addr c)) as [nerr nonce]. simpl.
  destruct ub as [u|]; simpl.
  - destruct (SignUpdateBilling (pk c) _) as [serr signed] eqn:Es. simpl.
    destruct err, nerr, serr, (AddTx signed); simpl;
      (eexists; split; [rewrite <- ?app_assoc; simpl; reflexivity|];
       eexists _, _; simpl; reflexivity).
  - destruct err, nerr; simpl;
      (eexists; split; [rewrite <- ?app_assoc; simpl; reflexivity|reflexivity]).
Qed.

End EngineFacts.

(** * The results on the small committee *)

Import Demo.

(** The key of the genesis block decodes to height 0. *)
Example genesis_key_height :
  keyWithSymbolToHeight
    (blockKey (X := collaborators) (started "db") genesisBlock) = 0.
Proof. reflexivity. Qed.

(** C1. Once P1's block is the head, its parent hash (the hash of
    genesis) differs from the head hash (its own); sent again, the block
    is accepted by [CheckAndPushNewBlock], not rejected with
    [ErrInvalidBlock]. *)
Lemma head_block_with_other_parent_accepted :
  Head (getHead (rt (atBlock1 "db"))) = BlockHash (block1 [] [])
  /\ ParentHash (block1 [] []) <> Head (getHead (rt (atBlock1 "db")))
  /\ CheckAndPushNewBlock (block1 [] []) (atBlock1 "db")
     = (Ret None, atBlock1 "db", [])
  /\ (CheckAndPushNewBlock (block1 [] []) (atBlock1 "db")).1.1
     <> Ret (Some ErrInvalidBlock).
Proof.
  split; [|split; [|split]].
  - vm_compute. reflexivity.
  - vm_compute. discriminate.
  - vm_compute. reflexivity.
  - vm_compute. discriminate.
Qed.

Lemma CheckAndPushNewBlock_parent_mismatch_witness :
  CheckAndPushNewBlock orphanBlock (turn2 "db")
  = (Ret (Some ErrInvalidBlock), turn2 "db",
     [EvLog LError "invalid new block for the current chain"]).
Proof.
  apply (CheckAndPushNewBlock_parent_mismatch (turn2 "db") orphanBlock).
  - vm_compute. discriminate.
  - unfold isHead. vm_compute. intros [_ H]. discriminate H.
Defined.

Lemma CheckAndPushNewBlock_idempotent_witness :
  CheckAndPushNewBlock genesisBlock (started "db") = (Ret None, started "db", [])
  /\ CheckAndPushNewBlock (block1 [] []) (after (pushBlock (block1 [] [])) (started "db"))
     = (Ret None, after (pushBlock (block1 [] [])) (started "db"), []).
Proof.
  split.
  - apply (proj1 CheckAndPushNewBlock_idempotent (started "db") genesisBlock).
    unfold isHead. vm_compute. split; reflexivity.
  - apply (proj2 CheckAndPushNewBlock_idempotent (started "db") _ (block1 [] [])
             [EvLog LInfo "pushed new block"]).
    vm_compute. reflexivity.
Defined.

Lemma pushBlock_put_failure_witness :
  exists n : blockNode,
    pushBlock (block1 [] []) (set_bdb broken (started "db"))
    = (Ret (Some (ErrWrap (ErrNew "leveldb: closed") "put %s")),
       set_nodes (nodes (set_bdb broken (started "db")) ++ [n])
         (set_bdb broken (started "db")), [])
    /\ rt (set_nodes (nodes (set_bdb broken (started "db")) ++ [n])
             (set_bdb broken (started "db")))
       = rt (set_bdb broken (started "db"))
    /\ bi (set_nodes (nodes (set_bdb broken (started "db")) ++ [n])
             (set_bdb broken (started "db")))
       = bi (set_bdb broken (started "db"))
    /\ ai (set_nodes (nodes (set_bdb broken (started "db")) ++ [n])
             (set_bdb broken (started "db")))
       = ai (set_bdb broken (started "db"))
    /\ bdb (set_nodes (nodes (set_bdb broken (started "db")) ++ [n])
              (set_bdb broken (started "db")))
       = bdb (set_bdb broken (started "db"))
    /\ (forall p m,
           nodes (set_bdb broken (started "db")) !! p = Some m ->
           (nodes (set_bdb broken (started "db")) ++ [n]) !! p = Some m).
Proof.
  apply (pushBlock_put_failure (set_bdb broken (started "db")) (block1 [] [])
           [x01] (ErrNew "leveldb: closed") broken).
  - reflexivity.
  - vm_compute. reflexivity.
Defined.

Lemma CheckAndPushNewBlock_producer_checks_witness :
  CheckAndPushNewBlock strangerBlock (turn2 "db")
  = (Ret (Some ErrUnknownProducer), turn2 "db",
     [EvLog LError "unknown producer of new block"])
  /\ CheckAndPushNewBlock outOfTurnBlock (turn2 "db")
     = (Ret (Some ErrInvalidProducer), turn2 "db",
        [EvLog LError "invalid producer of new block"]).
Proof.
  split.
  - apply (CheckAndPushNewBlock_producer_checks (turn2 "db") strangerBlock).
    + unfold isHead. vm_compute. intros [_ H]. discriminate H.
    + vm_compute. reflexivity.
    + vm_compute. reflexivity.
    + vm_compute. discriminate.
    + vm_compute. reflexivity.
  - apply (proj2 (CheckAndPushNewBlock_producer_checks (turn2 "db") outOfTurnBlock
             ltac:(unfold isHead; vm_compute; intros [_ H]; discriminate H)
             ltac:(vm_compute; reflexivity)
             ltac:(vm_compute; reflexivity)
             ltac:(vm_compute; discriminate)) 2).
    + vm_compute. discriminate.
    + vm_compute. split; discriminate.
    + vm_compute. reflexivity.
    + vm_compute. discriminate.
Defined.


(** The other way round: an ack whose request is at height 2, below the
    window, passes the expiry check because its response timestamp is at
    height 8; the index still holding the response, it is accepted. *)
Example stale_request_accepted :
  getHeightFromTime (rt height10) (GetRequestTimestamp staleAck) = 2
  /\ getHeightFromTime (rt height10) (GetResponseTimestamp staleAck) = 8
  /\ (VerifyAndPushAckedQuery staleAck height10).1.1 = Ret None.
Proof.
  split; [|split]; vm_compute; reflexivity.
Qed.


(** A chain at height 10 whose query store is failing. *)
Lemma VerifyAndPushAckedQuery_not_atomic_witness :
  ai_registered
    (getHeightFromTime (rt (set_tdb broken height10)) (GetRequestTimestamp staleAck))
    staleAck
    (ai_register
       (getHeightFromTime (rt (set_tdb broken height10)) (GetRequestTimestamp staleAck))
       staleAck (ai (set_tdb broken height10))).2
  = Some staleAck
  /\ VerifyAndPushAckedQuery staleAck (set_tdb broken height10)
     = (Ret (Some (ErrWrap (ErrNew "leveldb: closed") "put ack %d %s")),
        set_ai
          (ai_register
             (getHeightFromTime (rt (set_tdb broken height10))
                (GetRequestTimestamp staleAck))
             staleAck (ai (set_tdb broken height10))).2
          (set_tdb broken height10), []).
Proof.
  assert (Hnone :
    (ai_register
       (getHeightFromTime (rt (set_tdb broken height10)) (GetRequestTimestamp staleAck))
       staleAck (ai (set_tdb broken height10))).1 = None)
    by (vm_compute; reflexivity).
  destruct (VerifyAndPushAckedQuery_not_atomic (set_tdb broken height10) staleAck
              [x44]
              (ai_register
                 (getHeightFromTime (rt (set_tdb broken height10))
                    (GetRequestTimestamp staleAck))
                 staleAck (ai (set_tdb broken height10))).2)
    as (Hreg & Hfail & _).
  - vm_compute. reflexivity.
  - vm_compute. reflexivity.
  - reflexivity.
  - destruct (ai_register _ staleAck (ai (set_tdb broken height10))) as [o a].
    simpl in Hnone |- *. rewrite Hnone. reflexivity.
  - split; [exact Hreg|].
    apply (Hfail (ErrNew "leveldb: closed") broken). reflexivity.
Defined.

(** C2. Two rounds in which the billing computation fails. In the first
    the database id ("not-a-hash") has no account address: [billing] returns an update
    together with the error, and the round goes on to request the nonce,
    sign the update and submit it. In the second a query carries no
    public key: [billing] returns the error and no update, and the round
    still requests the nonce, then panics on the missing update. *)
Theorem billingRound_goes_on_after_error :
  (exists (ub : UpdateBilling) (e : error),
      billing (Some 1%nat) (after (CheckAndPushNewBlock (block1 [] [])) (turn2 "not-a-hash"))
      = (Ret (Some ub, Some e), after (CheckAndPushNewBlock (block1 [] [])) (turn2 "not-a-hash"), [])
      /\ (processBlocks_step [] (InBlock (block1 [] [])) (turn2 "not-a-hash")).1.1 = Ret []
      /\ (processBlocks_step [] (InBlock (block1 [] [])) (turn2 "not-a-hash")).2
         = [EvReplayBlock (block1 [] []);
            EvLog LInfo "pushed new block";
            EvLog LError "billing failed";
            EvNextAccountNonce [x0a];
            EvSignUpdateBilling
              {| Receiver := Receiver ub; Users := Users ub; Nonce := 7;
                 UBSignature := UBSignature ub |};
            EvAddTx
              {| Receiver := Receiver ub; Users := Users ub; Nonce := 7;
                 UBSignature := UBSignature ub |}])
  /\ (exists e : error,
         (billing (Some 1%nat)
            (after (CheckAndPushNewBlock (block1 [] [unsignedTx])) (turn2 "db"))).1.1
         = Ret (None, Some e)
         /\ (processBlocks_step [] (InBlock (block1 [] [unsignedTx])) (turn2 "db")).1.1
            = Panic "invalid memory address or nil pointer dereference"
         /\ (processBlocks_step [] (InBlock (block1 [] [unsignedTx])) (turn2 "db")).2
            = [EvReplayBlock (block1 [] [unsignedTx]);
               EvLog LInfo "pushed new block";
               EvLog LWarning "billing fail: miner addr";
               EvLog LError "billing failed";
               EvNextAccountNonce [x0a]]).
Proof.
  split.
  - exists {| Receiver := zeroAddress; Users := []; Nonce := 0; UBSignature := [] |},
      (ErrNew "invalid database id").
    split; [|split]; vm_compute; reflexivity.
  - exists (ErrNew "nil public key").
    split; [|split]; vm_compute; reflexivity.
Qed.

(** C3. A window of one block in which user U has a read of ten rows
    served by miner M1 and one failed request, the block being signed by
    miner M2. After the query txs, U owes 10 and M1 holds 10 for U. After
    the failed requests, U owes 11 and M2 holds 1 for U, but M1 holds
    nothing: its credit was thrown away with U's miner map. The update
    that [billing] builds says so: cost 11, incomes 1. *)
Theorem billing_failed_request_drops_credit :
  match billQueryTxs (X := collaborators) [readTx] ∅ ∅ with
  | inr (usersMap, minersMap) =>
      usersMap !! userU = Some 10
      /\ minersMap !! userU ≫= (fun inner => inner !! minerM1) = Some 10
  | inl _ => False
  end
  /\ match billingSweep 1
             (after (pushBlock (block1 [failedReq] [readTx])) (started "db"))
             (Some 1%nat) ∅ ∅ with
     | SweepDone usersMap minersMap =>
         usersMap !! userU = Some 11
         /\ minersMap !! userU ≫= (fun inner => inner !! minerM2) = Some 1
         /\ minersMap !! userU ≫= (fun inner => inner !! minerM1) = None
     | _ => False
     end
  /\ (billing (Some 1%nat)
        (after (pushBlock (block1 [failedReq] [readTx])) (started "db"))).1.1
     = Ret (Some {| Receiver := [x01];
                    Users := [{| User := userU; Cost := 11;
                                 Miners := [{| Miner := minerM2; Income := 1 |}] |}];
                    Nonce := 0; UBSignature := [] |}, None).
Proof.
  split; [|split].
  - vm_compute. split; reflexivity.
  - vm_compute. split; [|split]; reflexivity.
  - vm_compute. reflexivity.
Qed.

(** ** The scenarios of the specification, run *)

(** Billing of a window in which user U read ten rows on miner M1 and
    wrote three rows on miner M2: cost 13, incomes 10 and 3, receiver the
    account of the database. *)
Example billing_two_miners :
  (billing (Some 1%nat)
     (after (pushBlock (block1 [] [readTx; writeTx])) (started "db"))).1.1
  = Ret (Some {| Receiver := [x01];
                 Users := [{| User := userU; Cost := 13;
                              Miners := [{| Miner := minerM1; Income := 10 |};
                                         {| Miner := minerM2; Income := 3 |}] |}];
                 Nonce := 0; UBSignature := [] |}, None).
Proof. vm_compute. reflexivity. Qed.

(** The first tick is P0's own turn and finds nothing to commit; the
    second is P1's turn, whose block has not come. Both end alike. *)
Example runCurrentTurn_traces :
  (runCurrentTurn 10 (started "db")).2
  = [EvCommitEx; EvStat; EvPruneBlockCache; EvSetNextTurn; EvAckAdvance (-3);
     EvSendHeight 0]
  /\ (runCurrentTurn 20 (turn2 "db")).2
     = [EvLog LError "a block will be skipped"; EvStat; EvPruneBlockCache;
        EvSetNextTurn; EvAckAdvance (-3); EvSendHeight 0].
Proof. split; vm_compute; reflexivity. Qed.

(** P1's block for turn 2 is replayed and pushed; P2's is not. *)
Example ingest_in_turn :
  (CheckAndPushNewBlock (block1 [] []) (turn2 "db")).1.1 = Ret None
  /\ Head (getHead (rt (after (CheckAndPushNewBlock (block1 [] [])) (turn2 "db"))))
     = [x01]
  /\ st (after (CheckAndPushNewBlock (block1 [] [])) (turn2 "db")) = [block1 [] []]
  /\ st (after (CheckAndPushNewBlock outOfTurnBlock) (turn2 "db")) = [].
Proof. split; [|split; [|split]]; vm_compute; reflexivity. Qed.
